(** * Phone-address microservice: a shallow embedding and its properties

    The development follows the three source files of the service:
    - [objects.py]: the pydantic models [PhoneAddressCreate] and
      [AddressUpdate];
    - [redis_client.py]: the class [AsyncRedisManager];
    - [main.py]: the FastAPI handlers.

    Python strings are sequences of Unicode code points, the Redis server is a
    finite map from keys to values with a time to live, and Python exceptions
    are an explicit outcome of every computation. *)

From Stdlib Require Import ZArith NArith String Ascii List Lia Bool.
From Stdlib Require Import DecimalString.
From stdpp Require Import gmap list.

Local Open Scope N_scope.

(** ** Python strings *)

Module Py.

(** A character is its Unicode code point; a [str] is the sequence of its
    characters, so that [len] counts code points as Python does. *)
Abbreviation char := N.
Abbreviation str := (list N).

(** ASCII literals of the source, written as Rocq strings. *)
Definition py (s : string) : str :=
  List.map N_of_ascii (list_ascii_of_string s).

(** [len] of a string or of a list. *)
Definition len {A : Type} (s : list A) : Z := Z.of_nat (List.length s).

Definition in_range (c : char) (r : N * N) : bool :=
  (fst r <=? c) && (c <=? snd r).

(** Code points with Numeric_Type=Decimal (general category Nd): the
    characters for which [str.isdecimal] holds. Unicode 14.0. *)
Definition decimal_ranges : list (N * N) :=
  [(48, 57); (1632, 1641); (1776, 1785); (1984, 1993); (2406, 2415);
   (2534, 2543); (2662, 2671); (2790, 2799); (2918, 2927); (3046, 3055);
   (3174, 3183); (3302, 3311); (3430, 3439); (3558, 3567); (3664, 3673);
   (3792, 3801); (3872, 3881); (4160, 4169); (4240, 4249); (6112, 6121);
   (6160, 6169); (6470, 6479); (6608, 6617); (6784, 6793); (6800, 6809);
   (6992, 7001); (7088, 7097); (7232, 7241); (7248, 7257); (42528, 42537);
   (43216, 43225); (43264, 43273); (43472, 43481); (43504, 43513);
   (43600, 43609); (44016, 44025); (65296, 65305); (66720, 66729);
   (68912, 68921); (69734, 69743); (69872, 69881); (69942, 69951);
   (70096, 70105); (70384, 70393); (70736, 70745); (70864, 70873);
   (71248, 71257); (71360, 71369); (71472, 71481); (71904, 71913);
   (72016, 72025); (72784, 72793); (73040, 73049); (73120, 73129);
   (92768, 92777); (92864, 92873); (93008, 93017); (120782, 120831);
   (123200, 123209); (123632, 123641); (125264, 125273); (130032, 130041)].

(** Code points with Numeric_Type=Digit: superscripts, subscripts, circled
    and parenthesised digits and the like. Unicode 14.0. *)
Definition other_digit_ranges : list (N * N) :=
  [(178, 179); (185, 185); (4969, 4977); (6618, 6618); (8304, 8304);
   (8308, 8313); (8320, 8329); (9312, 9320); (9332, 9340); (9352, 9360);
   (9450, 9450); (9461, 9469); (9471, 9471); (10102, 10110); (10112, 10120);
   (10122, 10130); (68160, 68163); (69216, 69224); (69714, 69722);
   (127232, 127242)].

(** [c.isdecimal()] *)
Definition isdecimal (c : char) : bool :=
  existsb (in_range c) decimal_ranges.

(** [c.isdigit()]: Numeric_Type is Digit or Decimal. *)
Definition isdigit (c : char) : bool :=
  isdecimal c || existsb (in_range c) other_digit_ranges.

(** The ten ASCII digits ['0'] .. ['9']. *)
Definition is_ascii_digit (c : char) : bool := (48 <=? c) && (c <=? 57).

Definition is_ascii (c : char) : bool := c <? 128.

(** ['+'] *)
Definition plus_sign : char := 43.

End Py.
Import Py.

(** ** Phone normalisation *)

(** [''.join(c for c in phone if c.isdigit() or c == '+')], the expression of
    [get_address], [update_address], [delete_record] (main.py) and of
    [validate_phone] (objects.py). *)
Definition cleaned_phone (phone : str) : str :=
  List.filter (fun c => isdigit c || (c =? plus_sign)) phone.

(** The normaliser as the specification words it: only decimal digits and
    ['+'] are kept. [decimal] is the reading of "decimal-digit character". *)
Definition spec_normalize (decimal : char -> bool) (s : str) : str :=
  List.filter (fun c => decimal c || (c =? plus_sign)) s.

(** [sub] is a subsequence of [s]: relative order is preserved. *)
Inductive subsequence {A : Type} : list A -> list A -> Prop :=
| sub_nil : subsequence [] []
| sub_skip x sub s : subsequence sub s -> subsequence sub (x :: s)
| sub_keep x sub s : subsequence sub s -> subsequence (x :: sub) (x :: s).

(** ** Values exchanged over HTTP *)

(** The JSON-like values the handlers build: [None], strings, integers,
    lists and dictionaries with literal keys. *)
#[local] Unset Elimination Schemes.
Inductive json : Type :=
| JNone
| JStr (s : str)
| JInt (n : Z)
| JList (items : list json)
| JDict (items : list (str * json)).
#[local] Set Elimination Schemes.

(** A Python [dict] keeps its items in insertion order. [getitem] is
    [d.get(key)], [setitem] is [d[key] = v]. *)
Fixpoint getitem (key : str) (items : list (str * json)) : option json :=
  match items with
  | [] => None
  | (k, v) :: rest => if decide (k = key) then Some v else getitem key rest
  end.

Fixpoint setitem (key : str) (v : json) (items : list (str * json))
  : list (str * json) :=
  match items with
  | [] => [(key, v)]
  | (k, x) :: rest =>
      if decide (k = key) then (k, v) :: rest
      else (k, x) :: setitem key v rest
  end.

(** The member [key] of a JSON object. *)
Definition item (key : string) (j : json) : option json :=
  match j with
  | JDict items => getitem (py key) items
  | _ => None
  end.

(** [str(n)] for an integer. *)
Definition str_of_int (n : Z) : str :=
  py (NilZero.string_of_int (Z.to_int n)).

(** ** Exceptions and the store the service talks to *)

(** The exceptions that occur in the service. Every one of them is a subclass
    of [Exception], so [except Exception] catches them all. *)
Inductive exn : Type :=
| RuntimeError (msg : str)
| RedisError (msg : str)
| ValueError (msg : str)
| HTTPException (status_code : Z) (detail : json).

(** [str(e)]. An [HTTPException] prints as its status code and its detail
    (Starlette); only string details are ever printed by the service. *)
Definition exn_str (e : exn) : str :=
  match e with
  | RuntimeError msg | RedisError msg | ValueError msg => msg
  | HTTPException code (JStr d) => str_of_int code ++ py ": " ++ d
  | HTTPException code _ => str_of_int code ++ py ": "
  end.

(** The commands of the Redis client library ([redis.asyncio.Redis]) that
    [AsyncRedisManager] sends. *)
Inductive Command : Type :=
| GET (key : str)
| SET (key value : str)
| SETEX (key : str) (seconds : Z) (value : str)
| DEL (key : str)
| EXISTS (key : str)
| KEYS (pattern : str).

(** The entries of the server: value and time to live per key. *)
Abbreviation entries := (gmap str (str * option Z)).

(** The state the service runs against.
    - [client]: whether [self.client] of the manager is set ([initialize] ran);
    - [db]: the keys of the Redis server, each with its value and its time to
      live in seconds ([None]: the key does not expire);
    - [sent]: the commands sent to the server so far, oldest first;
    - [outage n]: whether the [n]-th command sent fails with a connection
      error instead of reaching the server. *)
Record world : Type := World {
  client : bool;
  db : entries;
  sent : list Command;
  outage : nat -> bool
}.

Inductive outcome (A : Type) : Type :=
| Returned (a : A)
| Raised (e : exn).
Arguments Returned {A} a.
Arguments Raised {A} e.

(** A computation of the service: it runs in a world, returns or raises, and
    leaves a world behind. *)
Definition M (A : Type) : Type := world -> outcome A * world.

Definition ret {A} (a : A) : M A := fun w => (Returned a, w).

Definition raise {A} (e : exn) : M A := fun w => (Raised e, w).

Definition bind {A B} (m : M A) (k : A -> M B) : M B :=
  fun w =>
    match m w with
    | (Returned a, w') => k a w'
    | (Raised e, w') => (Raised e, w')
    end.

(** [try: body except Exception as e: handler] *)
Definition try_except {A} (body : M A) (handler : exn -> M A) : M A :=
  fun w =>
    match body w with
    | (Returned a, w') => (Returned a, w')
    | (Raised e, w') => handler e w'
    end.

Notation "'let*' x ':=' m 'in' k" := (bind m (fun x => k))
  (at level 10, x pattern, m at level 100, k at level 200, only parsing).
Notation "m ';;' k" := (bind m (fun _ => k))
  (at level 100, k at level 200, right associativity, only parsing).

(** [if not self.client: raise RuntimeError("Redis client not initialized")] *)
Definition require_client : M unit :=
  fun w =>
    if client w then (Returned tt, w)
    else (Raised (RuntimeError (py "Redis client not initialized")), w).

(** Redis glob patterns, as far as the service needs them: [*] matches any
    run of characters, [?] one character, any other character itself.
    Character classes and escapes are not modelled; the handlers only pass
    the pattern [*]. *)
Fixpoint glob (pattern key : str) : bool :=
  match pattern with
  | [] => match key with [] => true | _ => false end
  | p :: pattern' =>
      if p =? 42 then
        (fix star (k : str) : bool :=
           glob pattern' k ||
           match k with
           | [] => false
           | _ :: k' => star k'
           end) key
      else
        match key with
        | [] => false
        | c :: key' => ((p =? 63) || (p =? c)) && glob pattern' key'
        end
  end.

(** Sending one command: it is recorded, and either fails with a connection
    error or is answered by the server, which may reject it. *)
Definition send {A} (c : Command)
    (answer : entries -> outcome A * entries) : M A :=
  fun w =>
    let n := List.length (sent w) in
    let w' := World (client w) (db w) (sent w ++ [c]) (outage w) in
    if outage w n then (Raised (RedisError (py "Connection refused")), w')
    else
      let (r, d) := answer (db w) in
      (r, World (client w) d (sent w ++ [c]) (outage w)).

(** How many of the one key given are live: 0 or 1. *)
Definition count (d : entries) (key : str) : Z :=
  match d !! key with
  | Some _ => 1
  | None => 0
  end.

Module Redis.

Definition get (key : str) : M (option str) :=
  send (GET key) (fun d => (Returned (fst <$> d !! key), d)).

Definition set (key value : str) : M unit :=
  send (SET key value) (fun d => (Returned tt, <[key := (value, None)]> d)).

(** The server rejects a time to live that is not positive. The model
    accepts every positive one; a server also rejects one that overflows its
    64-bit millisecond clock, so statements about [setex] beyond the
    handlers' 2,592,000 seconds are stated for a [clock_safe] time to
    live. *)
Definition setex (key : str) (seconds : Z) (value : str) : M unit :=
  send (SETEX key seconds value)
    (fun d =>
       if (0 <? seconds)%Z
       then (Returned tt, <[key := (value, Some seconds)]> d)
       else (Raised (RedisError (py "invalid expire time in 'setex' command")),
             d)).

(** The number of keys removed. *)
Definition delete (key : str) : M Z :=
  send (DEL key)
    (fun d => (Returned (count d key), base.delete key d)).

(** The number of keys that exist. *)
Definition exists_ (key : str) : M Z :=
  send (EXISTS key) (fun d => (Returned (count d key), d)).

(** The keys that match, in the server's enumeration order. *)
Definition keys (pattern : str) : M (list str) :=
  send (KEYS pattern)
    (fun d => (Returned (List.filter (glob pattern) (fst <$> map_to_list d)),
               d)).

End Redis.

(** ** redis_client.py: [AsyncRedisManager]

    [logger] calls have no effect on the store or on the result and are left
    out. *)

(** [if expire:] holds for an [Optional[int]] that is neither [None] nor
    zero. *)
Definition set_data (key value : str) (expire : option Z) : M bool :=
  try_except
    (require_client;;
     (match expire with
      | Some seconds =>
          if (seconds =? 0)%Z then Redis.set key value
          else Redis.setex key seconds value
      | None => Redis.set key value
      end);;
     ret true)
    (fun e => ret false).

Definition get_data (key : str) : M (option str) :=
  try_except
    (require_client;;
     Redis.get key)
    (fun e => ret None).

Definition delete_key (key : str) : M bool :=
  try_except
    (require_client;;
     let* result := Redis.delete key in
     ret (0 <? result)%Z)
    (fun e => ret false).

Definition exists_ (key : str) : M bool :=
  try_except
    (require_client;;
     let* result := Redis.exists_ key in
     ret (0 <? result)%Z)
    (fun e => ret false).

Definition keys (pattern : str) : M (list str) :=
  try_except
    (require_client;;
     Redis.keys pattern)
    (fun e => ret []).

(** ** objects.py: the pydantic models *)

Local Open Scope Z_scope.

(** One entry of a pydantic [ValidationError]: the kind of error and the
    field it is about. *)
Record ErrorDetails : Type := Error {
  type : string;
  loc : string;
  msg : str
}.

(** A [str] field declared with [Field(..., min_length=, max_length=)]. *)
Definition Field (min_length max_length : Z) (name : string) (v : str)
  : ErrorDetails + str :=
  if len v <? min_length then
    inl (Error "string_too_short" name (py "String too short"))
  else if max_length <? len v then
    inl (Error "string_too_long" name (py "String too long"))
  else inr v.

(** The message of [validate_phone]: a phone number must contain at least
    10 digits. *)
Definition phone_message : str :=
  [1053; 1086; 1084; 1077; 1088; 32; 1090; 1077; 1083; 1077; 1092; 1086;
   1085; 1072; 32; 1076; 1086; 1083; 1078; 1077; 1085; 32; 1089; 1086; 1076;
   1077; 1088; 1078; 1072; 1090; 1100; 32; 1084; 1080; 1085; 1080; 1084;
   1091; 1084; 32; 49; 48; 32; 1094; 1080; 1092; 1088]%N.

(** [PhoneAddressCreate.validate_phone], the [mode='before'] validator of
    the field [phone]. *)
Definition validate_phone (v : str) : outcome str :=
  let cleaned := cleaned_phone v in
  if len cleaned <? 10 then Raised (ValueError phone_message)
  else Returned cleaned.

Module PhoneAddressCreate.

Record t : Type := Build { phone : str; address : str }.

(** Building the model from a payload: the before-validator runs first and
    its result goes through the field's own constraints; an exception of the
    validator becomes an error of the field; the errors of all fields are
    collected. *)
Definition validate (phone address : str) : list ErrorDetails + t :=
  let phone_result :=
    match validate_phone phone with
    | Returned cleaned => Field 10 20 "phone" cleaned
    | Raised e =>
        inl (Error "value_error" "phone" (py "Value error, " ++ exn_str e))
    end in
  let address_result := Field 5 500 "address" address in
  match phone_result, address_result with
  | inr p, inr a => inr (Build p a)
  | inl e, inr _ => inl [e]
  | inr _, inl e => inl [e]
  | inl e1, inl e2 => inl [e1; e2]
  end.

End PhoneAddressCreate.

Module AddressUpdate.

Record t : Type := Build { address : str }.

Definition validate (address : str) : list ErrorDetails + t :=
  match Field 5 500 "address" address with
  | inr a => inr (Build a)
  | inl e => inl [e]
  end.

End AddressUpdate.

(** ** main.py: the handlers *)

Definition HTTP_201_CREATED := 201.
Definition HTTP_204_NO_CONTENT := 204.
Definition HTTP_404_NOT_FOUND := 404.
Definition HTTP_409_CONFLICT := 409.
Definition HTTP_422_UNPROCESSABLE_ENTITY := 422.
Definition HTTP_500_INTERNAL_SERVER_ERROR := 500.
Definition HTTP_503_SERVICE_UNAVAILABLE := 503.

(** [30 * 24 * 60 * 60], the time to live of a record in seconds. *)
Definition expire_30_days : Z := 30 * 24 * 60 * 60.

Definition json_of_optional (v : option str) : json :=
  match v with
  | Some s => JStr s
  | None => JNone
  end.

Definition health_check : M json :=
  try_except
    (raise (A := unit)
       (HTTPException HTTP_503_SERVICE_UNAVAILABLE
          (JStr (py "Redis connection failed")));;
     ret (JDict [(py "status", JStr (py "healthy"));
                 (py "service", JStr (py "phone-address-microservice"));
                 (py "redis", JStr (py "connected"))]))
    (fun e =>
       raise (HTTPException HTTP_503_SERVICE_UNAVAILABLE
                (JStr (py "Service unhealthy: " ++ exn_str e)))).

Definition get_address (phone : str) : M json :=
  let cleaned_phone := cleaned_phone phone in
  let* address := get_data cleaned_phone in
  match address with
  | None =>
      raise (HTTPException HTTP_404_NOT_FOUND
               (JStr (py "Address not found for phone: " ++ cleaned_phone)))
  | Some address =>
      ret (JDict [(py "phone", JStr cleaned_phone);
                  (py "address", JStr address);
                  (py "status", JStr (py "success"))])
  end.

Definition create_record (data : PhoneAddressCreate.t) : M json :=
  let phone := PhoneAddressCreate.phone data in
  let address := PhoneAddressCreate.address data in
  let* exists' := exists_ phone in
  if exists' then
    let* existing_address := get_data phone in
    raise (HTTPException HTTP_409_CONFLICT
             (JDict [(py "message",
                      JStr (py "Phone " ++ phone ++ py " already exists"));
                     (py "existing_address",
                      json_of_optional existing_address)]))
  else
    let* success := set_data phone address (Some expire_30_days) in
    if negb success then
      raise (HTTPException HTTP_500_INTERNAL_SERVER_ERROR
               (JStr (py "Failed to create record in Redis")))
    else
      ret (JDict [(py "message", JStr (py "Record created successfully"));
                  (py "phone", JStr phone);
                  (py "address", JStr address);
                  (py "status", JStr (py "created"));
                  (py "ttl_days", JInt 30)]).

Definition update_address (phone : str) (data : AddressUpdate.t) : M json :=
  let cleaned_phone := cleaned_phone phone in
  let address := AddressUpdate.address data in
  let* exists' := exists_ cleaned_phone in
  if negb exists' then
    raise (HTTPException HTTP_404_NOT_FOUND
             (JStr (py "Phone " ++ cleaned_phone ++ py " not found")))
  else
    let* success := set_data cleaned_phone address (Some expire_30_days) in
    if negb success then
      raise (HTTPException HTTP_500_INTERNAL_SERVER_ERROR
               (JStr (py "Failed to update record in Redis")))
    else
      ret (JDict [(py "message", JStr (py "Address updated successfully"));
                  (py "phone", JStr cleaned_phone);
                  (py "address", JStr address);
                  (py "status", JStr (py "updated"))]).

Definition delete_record (phone : str) : M json :=
  let cleaned_phone := cleaned_phone phone in
  let* exists' := exists_ cleaned_phone in
  if negb exists' then
    raise (HTTPException HTTP_404_NOT_FOUND
             (JStr (py "Phone " ++ cleaned_phone ++ py " not found")))
  else
    let* success := delete_key cleaned_phone in
    if negb success then
      raise (HTTPException HTTP_500_INTERNAL_SERVER_ERROR
               (JStr (py "Failed to delete record from Redis")))
    else ret JNone.

(** The loop of [get_all_records]:
    [for key in keys_to_fetch: value = await redis.get_data(key)] and then
    [if value: records[key] = value]; [None] and the empty string are
    false. *)
Fixpoint fetch (keys_to_fetch : list str) (records : list (str * json))
  : M (list (str * json)) :=
  match keys_to_fetch with
  | [] => ret records
  | key :: rest =>
      let* value := get_data key in
      match value with
      | Some ((_ :: _) as v) => fetch rest (setitem key (JStr v) records)
      | _ => fetch rest records
      end
  end.

(** [all_keys[:limit] if limit > 0 else all_keys] *)
Definition keys_to_fetch (all_keys : list str) (limit : Z) : list str :=
  if 0 <? limit then firstn (Z.to_nat limit) all_keys else all_keys.

Definition get_all_records (limit : Z) : M json :=
  try_except
    (let* all_keys := keys (py "*") in
     let* records := fetch (keys_to_fetch all_keys limit) [] in
     ret (JDict [(py "total_records", JInt (len all_keys));
                 (py "displayed_records", JInt (len records));
                 (py "records", JDict records)]))
    (fun e =>
       raise (HTTPException HTTP_500_INTERNAL_SERVER_ERROR
                (JStr (py "Failed to retrieve records: " ++ exn_str e)))).

Definition get_stats : M json :=
  try_except
    (let* all_keys := keys (py "*") in
     ret (JDict [(py "total_records", JInt (len all_keys));
                 (py "service", JStr (py "phone-address-microservice"));
                 (py "redis_status", JStr (py "connected"));
                 (py "sample_size", JInt (Z.min 5 (len all_keys)))]))
    (fun e =>
       raise (HTTPException HTTP_500_INTERNAL_SERVER_ERROR
                (JStr (py "Failed to retrieve stats: " ++ exn_str e)))).

(** ** The FastAPI layer *)

Record Response : Type := Build_Response {
  status_code : Z;
  content : json
}.

(** What FastAPI answers for a handler: the route's status code with the
    returned value, the status and detail of an [HTTPException], and 500 for
    any other exception. *)
Definition respond (route_status : Z) (r : outcome json) : Response :=
  match r with
  | Returned body => Build_Response route_status body
  | Raised (HTTPException code detail) =>
      Build_Response code (JDict [(py "detail", detail)])
  | Raised _ =>
      Build_Response HTTP_500_INTERNAL_SERVER_ERROR
        (JStr (py "Internal Server Error"))
  end.

Definition json_of_error (e : ErrorDetails) : json :=
  JDict [(py "type", JStr (py (type e)));
         (py "loc", JList [JStr (py "body"); JStr (py (loc e))]);
         (py "msg", JStr (msg e))].

(** A body that fails validation is answered with 422 and the handler is not
    called. *)
Definition unprocessable (errors : list ErrorDetails) : Response :=
  Build_Response HTTP_422_UNPROCESSABLE_ENTITY
    (JDict [(py "detail", JList (List.map json_of_error errors))]).

Definition serve (route_status : Z) (handler : M json) (w : world)
  : Response * world :=
  let (r, w') := handler w in (respond route_status r, w').

(** The routes, from the decorators of main.py. The [phone] of a route is
    the path parameter the router has bound, a [path_parameter]: a request
    whose path has no such segment does not reach the handler. *)
Definition GET_health : world -> Response * world :=
  serve 200 health_check.

Definition GET_phones (phone : str) : world -> Response * world :=
  serve 200 (get_address phone).

Definition POST_phones (phone address : str) (w : world) : Response * world :=
  match PhoneAddressCreate.validate phone address with
  | inl errors => (unprocessable errors, w)
  | inr data => serve HTTP_201_CREATED (create_record data) w
  end.

Definition PUT_phones (phone address : str) (w : world) : Response * world :=
  match AddressUpdate.validate address with
  | inl errors => (unprocessable errors, w)
  | inr data => serve 200 (update_address phone data) w
  end.

Definition DELETE_phones (phone : str) : world -> Response * world :=
  serve HTTP_204_NO_CONTENT (delete_record phone).

Definition GET_admin_records (limit : Z) : world -> Response * world :=
  serve 200 (get_all_records limit).

Definition GET_admin_stats : world -> Response * world :=
  serve 200 get_stats.

(** ** Vocabulary of the statements *)

(** The next command the manager issues fails: no client, or a connection
    error. *)
Definition faulty (w : world) : bool :=
  negb (client w) || outage w (List.length (sent w)).

(** The manager is initialised and the next [k] commands reach the server. *)
Definition answered (k : nat) (w : world) : Prop :=
  client w = true /\
  forall i, (i < k)%nat -> outage w (List.length (sent w) + i)%nat = false.

(** The world after command [c] was sent and left the entries [d]. *)
Definition after (c : Command) (d : entries) (w : world) : world :=
  World (client w) d (sent w ++ [c]) (outage w).

(** Whether the server rejects the write [set_data] asks for. *)
Definition rejected (expire : option Z) : bool :=
  match expire with
  | Some seconds => seconds <? 0
  | None => false
  end.

(** The record the listing shows for [key]: its value when it is present
    and not empty. *)
Definition shown_record (d : entries) (key : str) : option (str * json) :=
  match d !! key with
  | Some ((_ :: _) as v, _) => Some (key, JStr v)
  | _ => None
  end.

(** The records the listing shows for the keys [ks], in their order. *)
Definition shown (d : entries) (ks : list str) : list (str * json) :=
  omap (shown_record d) ks.

(** The records the listing shows for the keys [ks] when the read of the
    first of them is the command number [i]: a key is shown when its read is
    answered and its value is present and not empty. *)
Fixpoint listed (d : entries) (o : nat -> bool) (i : nat) (ks : list str)
  : list (str * json) :=
  match ks with
  | [] => []
  | k :: ks' =>
      (if o i then []
       else match shown_record d k with
            | Some r => [r]
            | None => []
            end)
      ++ listed d o (S i) ks'
  end.

(** The key list of the store: every key, in the server's order. *)
Definition key_list (d : entries) : list str := (map_to_list d).*1.

(** A create payload passes validation. *)
Definition valid_create (phone address : str) : Prop :=
  10 <= len (cleaned_phone phone) <= 20 /\ 5 <= len address <= 500.

(** The body of a successful create. *)
Definition created_body (phone address : str) : json :=
  JDict [(py "message", JStr (py "Record created successfully"));
         (py "phone", JStr phone);
         (py "address", JStr address);
         (py "status", JStr (py "created"));
         (py "ttl_days", JInt 30)].

(** The body of a successful read. *)
Definition found_body (phone address : str) : json :=
  JDict [(py "phone", JStr phone);
         (py "address", JStr address);
         (py "status", JStr (py "success"))].


(** The failure of the next command but one: the manager is not initialised
    or the command after the next one does not reach the server. *)
Definition second_fails (w : world) : Prop :=
  client w = false \/ outage w (S (List.length (sent w))) = true.


(** The time to live [set_data] asks for: none for [None] and for 0. *)
Definition stored_ttl (expire : option Z) : option Z :=
  match expire with
  | Some seconds => if seconds =? 0 then None else Some seconds
  | None => None
  end.

(** A character that normalisation keeps. *)
Definition kept (c : char) : Prop := isdigit c = true \/ c = plus_sign.

(** The next command fails and the one after it is answered. *)
Definition check_fails (w : world) : Prop :=
  client w = true /\
  outage w (List.length (sent w)) = true /\
  outage w (S (List.length (sent w))) = false.

(** What the router binds to [{phone}] in [/phones/{phone}]: a segment of
    the path, which is not empty and holds no ['/']. *)
Definition path_parameter (phone : str) : Prop :=
  phone <> [] /\ forallb (fun c => negb (c =? 47)%N) phone = true.

(** A time to live the 64-bit millisecond clock of the server holds: with
    [seconds * 1000] at most [2 ^ 62] the expiry time does not overflow. *)
Definition clock_safe (expire : option Z) : Prop :=
  match expire with
  | Some seconds => seconds * 1000 <= 2 ^ 62
  | None => True
  end.

(** ** Sample data *)

(** An initialised manager and a server that answers every command. *)
Definition store_of (records : list (str * str)) : world :=
  World true
    (list_to_map
       (List.map (fun r => (fst r, (snd r, Some expire_30_days))) records))
    [] (fun _ => false).

Definition moscow : str := py "Moscow, Primernaya st. 1".

Definition one_record : world := store_of [(py "+79161234567", moscow)].

(** A store without records. *)
Definition no_records : world := store_of [].

(** A store without records and with an outage at the second command. *)
Definition no_records_write_outage : world :=
  World true ∅ [] (fun n => Nat.eqb n 1).

Definition sample_create : PhoneAddressCreate.t :=
  PhoneAddressCreate.Build (py "+79161234567") moscow.

Definition sample_update : AddressUpdate.t :=
  AddressUpdate.Build (py "Saint Petersburg, Novaya st. 5").

(** The same store with an outage at the second command. *)
Definition one_record_write_outage : world :=
  World true (db one_record) [] (fun n => Nat.eqb n 1).

(** The same store with an outage at the first command only. *)
Definition one_record_check_outage : world :=
  World true (db one_record) [] (fun n => Nat.eqb n 0).

(** The same store with an outage at every command. *)
Definition one_record_unreachable : world :=
  World true (db one_record) [] (fun _ => true).

(** The same store behind a manager that was not initialised. *)
Definition one_record_no_client : world :=
  World false (db one_record) [] (fun _ => false).

(** The ten keys of the listing test: [+79161234560] .. [+79161234569]. *)
Definition ten_records : world :=
  store_of
    (List.map (fun i => (py "+7916123456" ++ [48 + i]%N, moscow))
       [0; 1; 2; 3; 4; 5; 6; 7; 8; 9]%N).

(** Ten keys whose values are the empty string. *)
Definition ten_empty_records : world :=
  store_of
    (List.map (fun i => (py "+7916123456" ++ [48 + i]%N, []))
       [0; 1; 2; 3; 4; 5; 6; 7; 8; 9]%N).

(** The ten records with an outage at the read of the third key listed. *)
Definition ten_records_read_outage : world :=
  World true (db ten_records) [] (fun n => Nat.eqb n 3).

(** * Properties *)

(** ** Phone normalisation *)

Local Open Scope N_scope.

Lemma filter_subsequence {A : Type} (p : A -> bool) (s : list A) :
  subsequence (List.filter p s) s.
Proof.
  induction s as [|x s IH]; simpl.
  - constructor.
  - destruct (p x); now constructor.
Qed.

Lemma filter_filter_same {A : Type} (p : A -> bool) (s : list A) :
  List.filter p (List.filter p s) = List.filter p s.
Proof.
  induction s as [|x s IH]; simpl; [reflexivity|].
  destruct (p x) eqn:E; simpl; rewrite ?E, IH; reflexivity.
Qed.

Lemma existsb_in_range_above (c : char) (rs : list (N * N)) :
  c < 128 ->
  forallb (fun r => 128 <=? fst r) rs = true ->
  existsb (in_range c) rs = false.
Proof.
  intros Hc. induction rs as [|r rs IH]; simpl; [reflexivity|].
  intros H. apply andb_prop in H as [Hr Hrs]. apply N.leb_le in Hr.
  rewrite (IH Hrs), orb_false_r. unfold in_range.
  destruct (fst r <=? c) eqn:E; [apply N.leb_le in E; lia | reflexivity].
Qed.

Lemma isdigit_ascii (c : char) :
  is_ascii c = true -> isdigit c = is_ascii_digit c.
Proof.
  unfold is_ascii. intros Hc. apply N.ltb_lt in Hc.
  unfold isdigit, isdecimal.
  rewrite (existsb_in_range_above c other_digit_ranges Hc eq_refl).
  rewrite orb_false_r.
  change decimal_ranges with ((48, 57) :: List.tl decimal_ranges).
  cbn [existsb].
  rewrite (existsb_in_range_above c (List.tl decimal_ranges) Hc eq_refl).
  now rewrite orb_false_r.
Qed.

Lemma cleaned_phone_cons (c : char) (s : str) :
  cleaned_phone (c :: s) =
  if isdigit c || (c =? plus_sign)%N then c :: cleaned_phone s
  else cleaned_phone s.
Proof. reflexivity. Qed.

Lemma cleaned_phone_app (s1 s2 : str) :
  cleaned_phone (s1 ++ s2) = cleaned_phone s1 ++ cleaned_phone s2.
Proof. apply List.filter_app. Qed.

Lemma cleaned_phone_In (c : char) (s : str) :
  In c (cleaned_phone s) <->
  In c s /\ (isdigit c = true \/ c = plus_sign).
Proof.
  unfold cleaned_phone. rewrite List.filter_In, orb_true_iff, N.eqb_eq.
  reflexivity.
Qed.

Lemma cleaned_phone_ascii (s : str) :
  forallb is_ascii s = true ->
  cleaned_phone s = spec_normalize is_ascii_digit s.
Proof.
  unfold cleaned_phone, spec_normalize.
  induction s as [|c s IH]; simpl; [reflexivity|].
  intros H. apply andb_prop in H as [Hc Hs].
  rewrite (isdigit_ascii c Hc), (IH Hs). reflexivity.
Qed.

(** C2, as the specification states it, fails: the superscript two (U+00B2)
    is not a decimal digit, neither as an ASCII digit nor as a character of
    category Nd, yet [str.isdigit] holds for it and normalisation keeps it. *)
Lemma cleaned_phone_keeps_superscript_two :
  cleaned_phone [178%N] = [178%N] /\
  cleaned_phone [178%N] <> spec_normalize isdecimal [178%N] /\
  cleaned_phone [178%N] <> spec_normalize is_ascii_digit [178%N].
Proof. repeat split; discriminate. Qed.

(** C2, amended: normalisation is a total function that returns the
    subsequence of its input made of the characters for which [str.isdigit]
    holds and of ['+'], in their original order; on an input of ASCII
    characters these are exactly the decimal digits ['0'..'9'] and ['+']. *)
Theorem cleaned_phone_keeps_digits_and_plus (s : str) :
  subsequence (cleaned_phone s) s /\
  (forall c, In c (cleaned_phone s) <->
             In c s /\ (isdigit c = true \/ c = plus_sign)) /\
  (forall s1 s2, s = s1 ++ s2 ->
                 cleaned_phone s = cleaned_phone s1 ++ cleaned_phone s2) /\
  (forallb is_ascii s = true ->
   cleaned_phone s = spec_normalize is_ascii_digit s).
Proof.
  split; [apply filter_subsequence|].
  split; [intros c; apply cleaned_phone_In|].
  split; [intros s1 s2 ->; apply cleaned_phone_app|].
  apply cleaned_phone_ascii.
Qed.

Lemma cleaned_phone_keeps_digits_and_plus_witness :
  cleaned_phone (py "8 (916) 123-45-67") =
  spec_normalize is_ascii_digit (py "8 (916) 123-45-67").
Proof.
  apply (cleaned_phone_keeps_digits_and_plus (py "8 (916) 123-45-67")).
  reflexivity.
Defined.

(** C8: normalisation is idempotent, and the two sample phones of the
    specification normalise as it says. *)
Theorem cleaned_phone_idempotent :
  (forall s : str, cleaned_phone (cleaned_phone s) = cleaned_phone s) /\
  cleaned_phone (py "8 (916) 123-45-67") = py "89161234567" /\
  cleaned_phone (py "+7 916 123 45 67") = py "+79161234567".
Proof.
  split; [|split; reflexivity].
  intros s. apply filter_filter_same.
Qed.

Local Open Scope Z_scope.

(** ** The record store client *)

Lemma count_Some (d : entries) (key : str) x :
  d !! key = Some x -> count d key = 1.
Proof. unfold count. now intros ->. Qed.

Lemma count_None (d : entries) (key : str) :
  d !! key = None -> count d key = 0.
Proof. unfold count. now intros ->. Qed.

Ltac run :=
  unfold faulty, after, set_data, get_data, delete_key, exists_, keys,
    Redis.get, Redis.set, Redis.setex, Redis.delete, Redis.exists_,
    Redis.keys, send, try_except, bind, require_client, ret, raise;
  cbn [client db sent outage fst snd negb orb andb].

Lemma get_data_run (key : str) (w : world) :
  get_data key w =
  (Returned (if faulty w then None else fst <$> db w !! key),
   if client w then after (GET key) (db w) w else w).
Proof.
  destruct w as [[] d s o]; run; [|reflexivity].
  destruct (o _); reflexivity.
Qed.

Lemma exists_run (key : str) (w : world) :
  exists_ key w =
  (Returned (if faulty w then false else 0 <? count (db w) key),
   if client w then after (EXISTS key) (db w) w else w).
Proof.
  destruct w as [[] d s o]; run; [|reflexivity].
  destruct (o _); reflexivity.
Qed.

Lemma delete_key_run (key : str) (w : world) :
  delete_key key w =
  (Returned (if faulty w then false else 0 <? count (db w) key),
   if client w
   then after (DEL key) (if faulty w then db w else delete key (db w)) w
   else w).
Proof.
  destruct w as [[] d s o]; run; [|reflexivity].
  destruct (o _); reflexivity.
Qed.

Lemma keys_run (pattern : str) (w : world) :
  keys pattern w =
  (Returned (if faulty w then []
             else List.filter (glob pattern) (fst <$> map_to_list (db w))),
   if client w then after (KEYS pattern) (db w) w else w).
Proof.
  destruct w as [[] d s o]; run; [|reflexivity].
  destruct (o _); reflexivity.
Qed.

Lemma set_data_run (key value : str) (expire : option Z) (w : world) :
  fst (set_data key value expire w) =
  Returned (if faulty w then false else negb (rejected expire)).
Proof.
  destruct w as [[] d s o]; run; [|reflexivity].
  destruct expire as [seconds|]; cbn.
  - destruct (Z.eqb_spec seconds 0) as [->|Hne]; cbn.
    + destruct (o _); reflexivity.
    + destruct (o _); cbn; [reflexivity|].
      destruct (Z.ltb_spec 0 seconds), (Z.ltb_spec seconds 0);
        cbn; try reflexivity; lia.
  - destruct (o _); reflexivity.
Qed.

(** C7: no operation of the client raises; on a fault (the client is not
    initialised, or the command fails) [get_data] returns [None], [set_data],
    [exists] and [delete_key] return [False] and [keys] returns the empty
    list; [delete_key] also returns [False] when the deletion removed no key
    ([count] is the number of keys the server reports). *)
Theorem client_returns_sentinels
    (key value pattern : str) (expire : option Z) (w : world) :
  fst (get_data key w) =
    Returned (if faulty w then None else fst <$> db w !! key) /\
  fst (set_data key value expire w) =
    Returned (if faulty w then false else negb (rejected expire)) /\
  fst (exists_ key w) =
    Returned (if faulty w then false else 0 <? count (db w) key) /\
  fst (delete_key key w) =
    Returned (if faulty w then false else 0 <? count (db w) key) /\
  fst (keys pattern w) =
    Returned (if faulty w then []
              else List.filter (glob pattern) (fst <$> map_to_list (db w))).
Proof.
  rewrite get_data_run, exists_run, delete_key_run, keys_run, set_data_run.
  repeat split.
Qed.

Lemma set_data_30_days_run (key value : str) (w : world) :
  set_data key value (Some expire_30_days) w =
  (Returned (negb (faulty w)),
   if client w
   then after (SETEX key 2592000 value)
          (if faulty w then db w
           else <[key := (value, Some 2592000)]> (db w)) w
   else w).
Proof.
  destruct w as [[] d s o]; run; [|reflexivity].
  change expire_30_days with 2592000. cbn.
  destruct (o _); reflexivity.
Qed.

Lemma bind_run {A B} (m : M A) (k : A -> M B) (w w' : world) (a : A) :
  m w = (Returned a, w') -> bind m k w = k a w'.
Proof. unfold bind. now intros ->. Qed.

Lemma answered_S (k : nat) (w : world) :
  answered (S k) w -> client w = true /\ faulty w = false.
Proof.
  intros [Hc Ho]. split; [assumption|]. unfold faulty.
  rewrite Hc. cbn. specialize (Ho 0%nat ltac:(lia)).
  now rewrite Nat.add_0_r in Ho.
Qed.

Lemma answered_after (k : nat) (c : Command) (d : entries) (w : world) :
  answered (S k) w -> answered k (after c d w).
Proof.
  intros [Hc Ho]. split; [assumption|]. cbn. intros i Hi.
  rewrite List.length_app. cbn.
  replace (List.length (sent w) + 1 + i)%nat
    with (List.length (sent w) + S i)%nat by lia.
  apply Ho. lia.
Qed.

Lemma faulty_absent_exists (key : str) (w : world) :
  db w !! key = None ->
  (if faulty w then false else 0 <? count (db w) key) = false.
Proof. intros H. rewrite (count_None _ _ H). now destruct (faulty w). Qed.

(** ** The handlers *)

(** A read of a key that is not in the store is answered with 404, whether
    the store answers or not. *)
Lemma get_address_absent (phone : str) (w : world) :
  db w !! cleaned_phone phone = None ->
  status_code (fst (GET_phones phone w)) = 404.
Proof.
  intros H. unfold GET_phones, serve, get_address.
  rewrite (bind_run _ _ _ _ _ (get_data_run _ w)).
  rewrite H. now destruct (faulty w).
Qed.

(** C1, on the code: the health check answers 503 in every world and sends
    no command to the store, so its answer does not depend on the store. *)
Theorem health_check_always_unhealthy (w : world) :
  status_code (fst (GET_health w)) = 503 /\
  snd (GET_health w) = w /\
  forall w', fst (GET_health w') = fst (GET_health w).
Proof. repeat split. Qed.

(** C3: when the phone of a validated create request is in the store and
    the store answers, the response is 409, its detail carries the stored
    address read with [get_data], and only an existence check and a read
    were sent: the entries of the store are unchanged. *)
Theorem create_record_conflict
    (data : PhoneAddressCreate.t) (w : world) (stored : str * option Z) :
  let phone := PhoneAddressCreate.phone data in
  let response := fst (serve HTTP_201_CREATED (create_record data) w) in
  let w' := snd (serve HTTP_201_CREATED (create_record data) w) in
  answered 2 w ->
  db w !! phone = Some stored ->
  status_code response = 409 /\
  (item "detail" (content response) ≫= item "existing_address")
    = Some (JStr (fst stored)) /\
  db w' = db w /\
  sent w' = sent w ++ [EXISTS phone; GET phone].
Proof.
  cbn zeta. intros Hw Hdb.
  pose proof (answered_S _ _ Hw) as [Hc Hf].
  pose proof (answered_S _ _
    (answered_after _ (EXISTS (PhoneAddressCreate.phone data)) (db w) _ Hw))
    as [Hc' Hf'].
  unfold serve, create_record.
  rewrite (bind_run _ _ _ _ _ (exists_run _ w)).
  rewrite Hf, Hc, (count_Some _ _ _ Hdb). cbn [Z.ltb Z.compare].
  rewrite (bind_run _ _ _ _ _ (get_data_run _ _)).
  rewrite Hf', Hc'. cbn [db after]. rewrite Hdb.
  cbn. rewrite <- List.app_assoc. repeat split.
Qed.

(** C4: an update of a phone that is not in the store is answered with 404
    and leaves the entries unchanged; an update of a phone that is in the
    store, when the store answers, replaces its value by the new address
    with a time to live of 2,592,000 seconds and is answered with 200 and
    the new address. *)
Theorem update_address_requires_existence
    (phone : str) (data : AddressUpdate.t) (w : world) :
  let key := cleaned_phone phone in
  let address := AddressUpdate.address data in
  let response := fst (serve 200 (update_address phone data) w) in
  let w' := snd (serve 200 (update_address phone data) w) in
  (db w !! key = None ->
   status_code response = 404 /\ db w' = db w) /\
  (answered 2 w -> is_Some (db w !! key) ->
   status_code response = 200 /\
   item "address" (content response) = Some (JStr address) /\
   db w' = <[key := (address, Some 2592000)]> (db w) /\
   db w' !! key = Some (address, Some (30 * 24 * 60 * 60))).
Proof.
  cbn zeta. unfold serve, update_address.
  rewrite (bind_run _ _ _ _ _ (exists_run _ w)).
  split.
  - intros Habsent. rewrite (faulty_absent_exists _ _ Habsent). cbn.
    split; [reflexivity|]. now destruct (client w).
  - intros Hw [stored Hdb].
    pose proof (answered_S _ _ Hw) as [Hc Hf].
    pose proof (answered_S _ _
      (answered_after _ (EXISTS (cleaned_phone phone)) (db w) _ Hw))
      as [Hc' Hf'].
    rewrite Hf, Hc, (count_Some _ _ _ Hdb). cbn [Z.ltb Z.compare negb].
    rewrite (bind_run _ _ _ _ _ (set_data_30_days_run _ _ _)).
    rewrite Hf', Hc'. cbn.
    repeat split. apply lookup_insert_eq.
Qed.

(** C5: a delete of a phone that is in the store, when the store answers,
    is answered with 204 and no body and removes the key, so that a read of
    the same phone afterwards is answered with 404; a delete of a phone that
    is not in the store is answered with 404 and leaves the entries
    unchanged. *)
Theorem delete_record_semantics (phone : str) (w : world) :
  let key := cleaned_phone phone in
  let response := fst (serve HTTP_204_NO_CONTENT (delete_record phone) w) in
  let w' := snd (serve HTTP_204_NO_CONTENT (delete_record phone) w) in
  (answered 2 w -> is_Some (db w !! key) ->
   response = Build_Response 204 JNone /\
   db w' = delete key (db w) /\
   status_code (fst (GET_phones phone w')) = 404) /\
  (db w !! key = None ->
   status_code response = 404 /\ db w' = db w).
Proof.
  cbn zeta. unfold serve, delete_record.
  rewrite (bind_run _ _ _ _ _ (exists_run _ w)).
  split.
  - intros Hw [stored Hdb].
    pose proof (answered_S _ _ Hw) as [Hc Hf].
    pose proof (answered_S _ _
      (answered_after _ (EXISTS (cleaned_phone phone)) (db w) _ Hw))
      as [Hc' Hf'].
    rewrite Hf, Hc, (count_Some _ _ _ Hdb). cbn [Z.ltb Z.compare negb].
    rewrite (bind_run _ _ _ _ _ (delete_key_run _ _)).
    rewrite Hf', Hc'. cbn [db after]. rewrite (count_Some _ _ _ Hdb).
    cbn. repeat split.
    apply get_address_absent. cbn. apply lookup_delete_eq.
  - intros Habsent. rewrite (faulty_absent_exists _ _ Habsent). cbn.
    split; [reflexivity|]. now destruct (client w).
Qed.

(** ** The administrative listing *)

Lemma glob_star (key : str) : glob (py "*") key = true.
Proof.
  change (py "*") with [42%N]. cbn [glob N.eqb Pos.eqb].
  induction key as [|c key IH]; [reflexivity|].
  cbn. exact IH.
Qed.

Lemma filter_all {A} (p : A -> bool) (l : list A) :
  (forall x, p x = true) -> List.filter p l = l.
Proof.
  intros Hp. induction l as [|x l IH]; cbn; [reflexivity|].
  now rewrite Hp, IH.
Qed.

Lemma keys_star_run (w : world) :
  answered 1 w ->
  keys (py "*") w = (Returned (key_list (db w)), after (KEYS (py "*")) (db w) w).
Proof.
  intros Hw. destruct (answered_S _ _ Hw) as [Hc Hf].
  rewrite keys_run, Hc, Hf. rewrite filter_all by apply glob_star.
  reflexivity.
Qed.

Lemma setitem_fresh (key : str) (v : json) (items : list (str * json)) :
  key ∉ items.*1 -> setitem key v items = items ++ [(key, v)].
Proof.
  induction items as [|[k x] items IH]; cbn; [reflexivity|].
  intros Hk. apply not_elem_of_cons in Hk as [Hne Hk].
  destruct (decide (k = key)) as [->|_]; [congruence|].
  now rewrite IH.
Qed.

Lemma shown_cons (d : entries) (k : str) (ks : list str) :
  shown d (k :: ks) =
  match shown_record d k with
  | Some r => r :: shown d ks
  | None => shown d ks
  end.
Proof. reflexivity. Qed.

(** The loop over distinct keys, in a store that answers: the records found
    are appended in order, one read is sent per key, nothing is written. *)
Lemma fetch_run (ks : list str) :
  forall (records : list (str * json)) (w : world),
  NoDup ks ->
  (forall k, k ∈ ks -> k ∉ records.*1) ->
  answered (List.length ks) w ->
  fetch ks records w =
  (Returned (records ++ shown (db w) ks),
   World (client w) (db w) (sent w ++ (GET <$> ks)) (outage w)).
Proof.
  induction ks as [|k ks IH]; intros records w Hnd Hfresh Hw.
  - cbn. rewrite !List.app_nil_r. now destruct w.
  - apply NoDup_cons in Hnd as [Hk Hnd].
    destruct (answered_S _ _ Hw) as [Hc Hf].
    pose proof (answered_after _ (GET k) (db w) _ Hw) as Hw'.
    assert (Hsent : forall l : list Command,
               (sent w ++ [GET k]) ++ l = sent w ++ GET k :: l)
      by (intros l; now rewrite <- List.app_assoc).
    assert (Htail : forall k', k' ∈ ks -> k' ∉ records.*1)
      by (intros k' Hk'; apply Hfresh; now right).
    assert (Hhead : k ∉ records.*1) by (apply Hfresh; now left).
    cbn [fetch]. rewrite (bind_run _ _ _ _ _ (get_data_run _ w)).
    rewrite Hf, Hc, shown_cons. unfold shown_record.
    destruct (db w !! k) as [[[|c v] ttl]|] eqn:Hdb;
      cbn [fmap option_fmap option_map fst].
    + rewrite (IH _ _ Hnd Htail Hw'). cbn. now rewrite Hsent, Hc.
    + rewrite setitem_fresh by assumption.
      rewrite IH; [|assumption| |assumption].
      * cbn. now rewrite Hsent, Hc, <- List.app_assoc.
      * intros k' Hk'. rewrite fmap_app. cbn. intros Hin.
        apply elem_of_app in Hin as [Hin|Hin].
        -- revert Hin. now apply Htail.
        -- apply list_elem_of_singleton in Hin. congruence.
    + rewrite (IH _ _ Hnd Htail Hw'). cbn. now rewrite Hsent, Hc.
Qed.

Lemma key_list_elem (d : entries) (k : str) :
  k ∈ key_list d <-> is_Some (d !! k).
Proof.
  unfold key_list. rewrite list_elem_of_fmap. split.
  - intros [[k' x] [-> Hx]]. apply elem_of_map_to_list in Hx. now exists x.
  - intros [x Hx]. exists (k, x). split; [reflexivity|].
    now apply elem_of_map_to_list.
Qed.

Lemma key_list_length (d : entries) : len (key_list d) = Z.of_nat (size d).
Proof.
  unfold len, key_list. now rewrite length_fmap, length_map_to_list.
Qed.

Lemma keys_to_fetch_sublist (all_keys : list str) (limit : Z) :
  keys_to_fetch all_keys limit `sublist_of` all_keys.
Proof.
  unfold keys_to_fetch. destruct (0 <? limit); [apply sublist_take|reflexivity].
Qed.

Lemma keys_to_fetch_length (all_keys : list str) (limit : Z) :
  len (keys_to_fetch all_keys limit) =
  if 0 <? limit then Z.min limit (len all_keys) else len all_keys.
Proof.
  unfold keys_to_fetch, len. destruct (Z.ltb_spec 0 limit); [|reflexivity].
  rewrite length_take. lia.
Qed.

Lemma shown_elem (d : entries) (ks : list str) (k : str) (j : json) :
  (k, j) ∈ shown d ks <->
  k ∈ ks /\
  exists (v : str) ttl, d !! k = Some (v, ttl) /\ v <> [] /\ j = JStr v.
Proof.
  unfold shown. rewrite list_elem_of_omap. unfold shown_record. split.
  - intros [x [Hx Hs]].
    destruct (d !! x) as [[[|c v] ttl]|] eqn:Hd; inversion Hs; subst.
    split; [assumption|]. exists (c :: v), ttl.
    split; [exact Hd|]. split; [discriminate|reflexivity].
  - intros [Hk [v [ttl [Hd [Hv ->]]]]]. exists k. split; [assumption|].
    cbv beta. rewrite Hd. destruct v; [congruence|reflexivity].
Qed.

Lemma shown_length (d : entries) (ks : list str) :
  (forall k, k ∈ ks ->
     exists (v : str) ttl, d !! k = Some (v, ttl) /\ v <> []) ->
  List.length (shown d ks) = List.length ks.
Proof.
  induction ks as [|k ks IH]; intros H; [reflexivity|].
  rewrite shown_cons. unfold shown_record.
  destruct (H k ltac:(now left)) as [v [ttl [-> Hv]]].
  destruct v; [congruence|]. cbn. f_equal. apply IH.
  intros k' Hk'. apply H. now right.
Qed.

Lemma listed_elem (d : entries) (o : nat -> bool) (ks : list str) :
  forall (i : nat) (k : str) (j : json),
  (k, j) ∈ listed d o i ks <->
  exists p, ks !! p = Some k /\ o (i + p)%nat = false /\
    exists (v : str) ttl, d !! k = Some (v, ttl) /\ v <> [] /\ j = JStr v.
Proof.
  induction ks as [|k0 ks IH]; intros i k j.
  - cbn. split; [intros H; inversion H|intros (p & Hp & _); discriminate Hp].
  - cbn [listed]. rewrite elem_of_app, IH. split.
    + intros [Hhead|(p & Hp & Ho & Hv)].
      * exists 0%nat. rewrite Nat.add_0_r.
        destruct (o i); [inversion Hhead|]. unfold shown_record in Hhead.
        destruct (d !! k0) as [[[|c v] ttl]|] eqn:Hd;
          try (inversion Hhead; fail).
        apply list_elem_of_singleton in Hhead. injection Hhead as -> ->.
        split; [reflexivity|]. split; [reflexivity|].
        exists (c :: v), ttl. split; [exact Hd|].
        split; [discriminate|reflexivity].
      * exists (S p). split; [exact Hp|].
        split; [now rewrite Nat.add_succ_r|exact Hv].
    + intros ([|p] & Hp & Ho & v & ttl & Hd & Hv & ->).
      * left. cbn in Hp. injection Hp as ->. rewrite Nat.add_0_r in Ho.
        rewrite Ho. unfold shown_record. rewrite Hd.
        destruct v; [congruence|]. now left.
      * right. exists p. split; [exact Hp|].
        split; [now rewrite Nat.add_succ_r in Ho|]. eauto 6.
Qed.

Lemma listed_keys (d : entries) (o : nat -> bool) (i : nat) (ks : list str)
    (k : str) :
  k ∈ (listed d o i ks).*1 -> k ∈ ks.
Proof.
  intros Hk. apply list_elem_of_fmap in Hk as [[k' j] [-> Hk]].
  apply listed_elem in Hk as (p & Hp & _).
  apply list_elem_of_lookup. now exists p.
Qed.

Lemma listed_answered (d : entries) (o : nat -> bool) (ks : list str) :
  forall i : nat,
  (forall p, (p < List.length ks)%nat -> o (i + p)%nat = false) ->
  listed d o i ks = shown d ks.
Proof.
  induction ks as [|k ks IH]; intros i Ho; [reflexivity|].
  cbn [listed]. rewrite shown_cons, IH.
  - specialize (Ho 0%nat ltac:(cbn; lia)). rewrite Nat.add_0_r in Ho.
    rewrite Ho. now destruct (shown_record d k).
  - intros p Hp. replace (S i + p)%nat with (i + S p)%nat by lia.
    apply Ho. cbn. lia.
Qed.

(** The loop over distinct keys behind an initialised manager, whatever
    reads fail: the records of the keys read with a non-empty value are
    appended in order, one read is sent per key, nothing is written. *)
Lemma fetch_listed (ks : list str) :
  forall (records : list (str * json)) (w : world),
  NoDup ks ->
  (forall k, k ∈ ks -> k ∉ records.*1) ->
  client w = true ->
  fetch ks records w =
  (Returned
     (records ++ listed (db w) (outage w) (List.length (sent w)) ks),
   World true (db w) (sent w ++ (GET <$> ks)) (outage w)).
Proof.
  induction ks as [|k ks IH]; intros records w Hnd Hfresh Hc.
  - cbn. rewrite !List.app_nil_r. destruct w. cbn in Hc. now subst.
  - apply NoDup_cons in Hnd as [Hk Hnd].
    assert (Htail : forall k', k' ∈ ks -> k' ∉ records.*1)
      by (intros k' Hk'; apply Hfresh; now right).
    assert (Hhead : k ∉ records.*1) by (apply Hfresh; now left).
    assert (Hlen : List.length (sent w ++ [GET k]) = S (List.length (sent w)))
      by (rewrite List.length_app; cbn; lia).
    assert (Hsent : forall l : list Command,
               (sent w ++ [GET k]) ++ l = sent w ++ GET k :: l)
      by (intros l; now rewrite <- List.app_assoc).
    cbn [fetch listed]. rewrite (bind_run _ _ _ _ _ (get_data_run _ w)).
    rewrite Hc. unfold faulty. rewrite Hc. cbn [negb orb].
    destruct (outage w (List.length (sent w))) eqn:Ho.
    + rewrite (IH records (after (GET k) (db w) w) Hnd Htail Hc).
      cbn [db sent outage after]. now rewrite Hlen, Hsent.
    + unfold shown_record.
      destruct (db w !! k) as [[[|c v] ttl]|] eqn:Hdb;
        cbn [fmap option_fmap option_map fst].
      * rewrite (IH records (after (GET k) (db w) w) Hnd Htail Hc).
        cbn [db sent outage after]. now rewrite Hlen, Hsent.
      * rewrite setitem_fresh by assumption.
        rewrite (IH _ (after (GET k) (db w) w) Hnd); [| |exact Hc].
        -- cbn [db sent outage after].
           now rewrite Hlen, Hsent, <- List.app_assoc.
        -- intros k' Hk'. rewrite fmap_app. cbn. intros Hin.
           apply elem_of_app in Hin as [Hin|Hin].
           ++ revert Hin. now apply Htail.
           ++ apply list_elem_of_singleton in Hin. congruence.
      * rewrite (IH records (after (GET k) (db w) w) Hnd Htail Hc).
        cbn [db sent outage after]. now rewrite Hlen, Hsent.
Qed.

(** C6, amended: when the [KEYS] command of the listing is answered,
    [total_records] is the length of the full key list; the values of the
    first [limit] keys of that list are read when [limit] is positive, of all
    keys otherwise, and of no other key; a key is among the records exactly
    when its read is answered with a value that is not empty, with that
    value, so that a key whose read returns nothing is skipped;
    [displayed_records] is the number of records returned, which is
    [min limit total] (or the total) when every read is answered and no
    stored value is empty. The loop itself, on any list of distinct keys,
    skips a key that is not in the store. *)
Theorem get_all_records_lists_answered_reads (limit : Z) (w : world) :
  let n := List.length (sent w) in
  let all_keys := key_list (db w) in
  let fetched := keys_to_fetch all_keys limit in
  let response := fst (GET_admin_records limit w) in
  let w' := snd (GET_admin_records limit w) in
  client w = true ->
  outage w n = false ->
  status_code response = 200 /\
  item "total_records" (content response) = Some (JInt (len all_keys)) /\
  len all_keys = Z.of_nat (size (db w)) /\
  (0 < limit -> fetched = take (Z.to_nat limit) all_keys) /\
  (limit <= 0 -> fetched = all_keys) /\
  sent w' = sent w ++ KEYS (py "*") :: (GET <$> fetched) /\
  db w' = db w /\
  (exists records,
     item "records" (content response) = Some (JDict records) /\
     item "displayed_records" (content response)
       = Some (JInt (len records)) /\
     records = listed (db w) (outage w) (S n) fetched /\
     (forall k j, (k, j) ∈ records <->
        exists p, fetched !! p = Some k /\
          outage w (S n + p)%nat = false /\
          exists (v : str) ttl,
            db w !! k = Some (v, ttl) /\ v <> [] /\ j = JStr v) /\
     ((forall p, (p < List.length fetched)%nat ->
                 outage w (S n + p)%nat = false) ->
      (forall k (v : str) ttl, db w !! k = Some (v, ttl) -> v <> []) ->
      len records =
      if 0 <? limit then Z.min limit (len all_keys) else len all_keys)) /\
  (forall (ks : list str) (w1 : world) (found : list (str * json)),
     NoDup ks -> client w1 = true ->
     fst (fetch ks [] w1) = Returned found ->
     forall k, db w1 !! k = None -> k ∉ found.*1).
Proof.
  cbn zeta. intros Hc Ho.
  set (n := List.length (sent w)).
  set (all_keys := key_list (db w)).
  set (fetched := keys_to_fetch all_keys limit).
  assert (Hw1 : answered 1 w).
  { split; [assumption|]. intros i Hi.
    replace i with 0%nat by lia. now rewrite Nat.add_0_r. }
  assert (Hnd : NoDup fetched).
  { apply (sublist_NoDup _ all_keys); [apply NoDup_fst_map_to_list|].
    apply keys_to_fetch_sublist. }
  assert (Hrun : GET_admin_records limit w =
            (Build_Response 200
               (JDict [(py "total_records", JInt (len all_keys));
                       (py "displayed_records",
                        JInt (len (listed (db w) (outage w) (S n) fetched)));
                       (py "records",
                        JDict (listed (db w) (outage w) (S n) fetched))]),
             World true (db w)
               (sent w ++ KEYS (py "*") :: (GET <$> fetched)) (outage w))).
  { unfold GET_admin_records, serve, get_all_records, try_except.
    rewrite (bind_run _ _ _ _ _ (keys_star_run w Hw1)).
    fold all_keys. fold fetched.
    rewrite (bind_run _ _ _ _ _
               (fetch_listed fetched [] (after (KEYS (py "*")) (db w) w) Hnd
                  ltac:(intros k _ H; inversion H) Hc)).
    cbn [db sent outage after]. rewrite List.length_app. cbn [List.length].
    rewrite Nat.add_1_r. fold n. cbn. now rewrite <- List.app_assoc. }
  rewrite Hrun. cbn [fst snd status_code content db sent].
  split; [reflexivity|]. split; [reflexivity|].
  split; [apply key_list_length|].
  split; [intros Hl; unfold fetched, keys_to_fetch;
          now destruct (Z.ltb_spec 0 limit); [|lia]|].
  split; [intros Hl; unfold fetched, keys_to_fetch;
          now destruct (Z.ltb_spec 0 limit); [lia|]|].
  split; [reflexivity|]. split; [reflexivity|].
  split.
  - exists (listed (db w) (outage w) (S n) fetched).
    split; [reflexivity|]. split; [reflexivity|]. split; [reflexivity|].
    split; [intros k j; apply listed_elem|].
    intros Hreads Hvalues. rewrite (listed_answered _ _ _ _ Hreads).
    unfold len at 1. rewrite shown_length.
    + apply keys_to_fetch_length.
    + intros k Hk.
      assert (Hin : k ∈ all_keys)
        by (exact (elem_of_sublist _ _ _ Hk (keys_to_fetch_sublist _ _))).
      apply key_list_elem in Hin as [[v ttl] Hd]. exists v, ttl.
      split; [assumption|]. eapply Hvalues, Hd.
  - intros ks w1 found Hks Hc1 Hfound k Hnone Hin.
    rewrite (fetch_listed ks [] w1 Hks ltac:(intros k' _ H; inversion H) Hc1)
      in Hfound.
    cbn in Hfound. injection Hfound as <-.
    apply list_elem_of_fmap in Hin as [[k' j] [-> Hin]].
    apply listed_elem in Hin as (_ & _ & _ & v & ttl & Hd & _).
    cbn [fst] in Hnone. congruence.
Qed.

(** ** Validation *)

Lemma Field_accepts (min_length max_length : Z) (name : string) (v : str) :
  min_length <= len v <= max_length ->
  Field min_length max_length name v = inr v.
Proof.
  intros [Hmin Hmax]. unfold Field.
  destruct (Z.ltb_spec (len v) min_length); [lia|].
  destruct (Z.ltb_spec max_length (len v)); [lia|reflexivity].
Qed.

Lemma Field_rejects (min_length max_length : Z) (name : string) (v : str) :
  ~ (min_length <= len v <= max_length) ->
  exists e, Field min_length max_length name v = inl e.
Proof.
  intros H. unfold Field.
  destruct (Z.ltb_spec (len v) min_length); [eauto|].
  destruct (Z.ltb_spec max_length (len v)); [eauto|lia].
Qed.

Lemma create_validate_accepts (phone address : str) :
  valid_create phone address ->
  PhoneAddressCreate.validate phone address =
  inr (PhoneAddressCreate.Build (cleaned_phone phone) address).
Proof.
  intros [Hp Ha]. unfold PhoneAddressCreate.validate, validate_phone.
  destruct (Z.ltb_spec (len (cleaned_phone phone)) 10); [lia|].
  now rewrite (Field_accepts _ _ _ _ Hp), (Field_accepts _ _ _ _ Ha).
Qed.

Lemma create_validate_rejects (phone address : str) :
  ~ valid_create phone address ->
  exists errors, PhoneAddressCreate.validate phone address = inl errors.
Proof.
  intros H. unfold PhoneAddressCreate.validate, validate_phone.
  destruct (Z.ltb_spec (len (cleaned_phone phone)) 10) as [Hshort|Hlong].
  - destruct (Field 5 500 "address" address); eauto.
  - destruct (Z_le_dec (len (cleaned_phone phone)) 20) as [Hp|Hp].
    + rewrite (Field_accepts 10 20) by lia.
      destruct (Field_rejects 5 500 "address" address) as [e ->]; [|eauto].
      unfold valid_create in H. lia.
    + destruct (Field_rejects 10 20 "phone" (cleaned_phone phone))
        as [e ->]; [lia|].
      destruct (Field 5 500 "address" address); eauto.
Qed.

Lemma update_validate_accepts (address : str) :
  5 <= len address <= 500 ->
  AddressUpdate.validate address = inr (AddressUpdate.Build address).
Proof.
  intros H. unfold AddressUpdate.validate. now rewrite Field_accepts.
Qed.

Lemma update_validate_rejects (address : str) :
  ~ (5 <= len address <= 500) ->
  exists errors, AddressUpdate.validate address = inl errors.
Proof.
  intros H. unfold AddressUpdate.validate.
  destruct (Field_rejects 5 500 "address" address H) as [e ->]. eauto.
Qed.

(** The handlers answer with their own status codes, never with 422. *)
Lemma create_record_status (data : PhoneAddressCreate.t) (w : world) :
  status_code (fst (serve HTTP_201_CREATED (create_record data) w)) <> 422.
Proof.
  unfold serve, create_record.
  rewrite (bind_run _ _ _ _ _ (exists_run _ w)).
  destruct (if faulty w then false else _).
  - rewrite (bind_run _ _ _ _ _ (get_data_run _ _)). discriminate.
  - rewrite (bind_run _ _ _ _ _ (set_data_30_days_run _ _ _)).
    destruct (faulty _); discriminate.
Qed.

Lemma update_address_status
    (phone : str) (data : AddressUpdate.t) (w : world) :
  status_code (fst (serve 200 (update_address phone data) w)) <> 422.
Proof.
  unfold serve, update_address.
  rewrite (bind_run _ _ _ _ _ (exists_run _ w)).
  destruct (if faulty w then false else _); [|discriminate].
  cbn [negb]. rewrite (bind_run _ _ _ _ _ (set_data_30_days_run _ _ _)).
  destruct (faulty _); discriminate.
Qed.

(** C9: a create payload whose address has 4 characters or whose phone
    normalises to fewer than 10 characters, and an update payload whose
    address has 4 characters, fail validation and are answered with 422
    without the handler being called; a 422 answer arises exactly when the
    payload is outside the bounds (address 5 to 500 characters for both
    operations), so it is never the 404 or the 500 of a handler. *)
Theorem validation_failure_is_422
    (path_phone phone address : str) (w : world) :
  (len address = 4 \/ len (cleaned_phone phone) < 10 ->
   exists errors,
     PhoneAddressCreate.validate phone address = inl errors /\
     POST_phones phone address w = (unprocessable errors, w)) /\
  (len address = 4 ->
   exists errors,
     AddressUpdate.validate address = inl errors /\
     PUT_phones path_phone address w = (unprocessable errors, w)) /\
  (status_code (fst (POST_phones phone address w)) = 422 <->
   ~ (10 <= len (cleaned_phone phone) <= 20 /\ 5 <= len address <= 500)) /\
  (status_code (fst (PUT_phones path_phone address w)) = 422 <->
   ~ (5 <= len address <= 500)) /\
  status_code (unprocessable []) = 422 /\
  HTTP_422_UNPROCESSABLE_ENTITY <> HTTP_404_NOT_FOUND /\
  HTTP_422_UNPROCESSABLE_ENTITY <> HTTP_500_INTERNAL_SERVER_ERROR.
Proof.
  split; [|split; [|split; [|split]]].
  - intros H.
    destruct (create_validate_rejects phone address) as [errors He].
    { unfold valid_create. lia. }
    exists errors. split; [assumption|]. unfold POST_phones. now rewrite He.
  - intros H.
    destruct (update_validate_rejects address) as [errors He]; [lia|].
    exists errors. split; [assumption|]. unfold PUT_phones. now rewrite He.
  - unfold POST_phones. split.
    + intros Hstatus Hvalid.
      rewrite (create_validate_accepts phone address Hvalid) in Hstatus.
      now apply create_record_status in Hstatus.
    + intros H. destruct (create_validate_rejects phone address H)
        as [errors ->]. reflexivity.
  - unfold PUT_phones. split.
    + intros Hstatus Hvalid.
      rewrite (update_validate_accepts address Hvalid) in Hstatus.
      now apply update_address_status in Hstatus.
    + intros H. destruct (update_validate_rejects address H)
        as [errors ->]. reflexivity.
  - repeat split; discriminate.
Qed.

(** C10: a create payload whose normalised phone is longer than 20
    characters fails validation and is answered with 422; the world is left
    as it was, so no command is sent to the store. *)
Theorem phone_longer_than_20_is_rejected (phone address : str) (w : world) :
  20 < len (cleaned_phone phone) ->
  (exists errors, PhoneAddressCreate.validate phone address = inl errors) /\
  status_code (fst (POST_phones phone address w)) = 422 /\
  snd (POST_phones phone address w) = w /\
  sent (snd (POST_phones phone address w)) = sent w.
Proof.
  intros H.
  destruct (create_validate_rejects phone address) as [errors He].
  { unfold valid_create. lia. }
  unfold POST_phones. rewrite He. cbn. eauto.
Qed.

(** ** The statements at sample requests *)

Lemma store_of_answered (k : nat) (records : list (str * str)) :
  answered k (store_of records).
Proof. split; [reflexivity|]. intros i _. reflexivity. Defined.

Lemma create_record_conflict_witness :
  status_code
    (fst (serve HTTP_201_CREATED
            (create_record
               (PhoneAddressCreate.Build (py "+79161234567") (py "Other")))
            one_record)) = 409.
Proof.
  refine (proj1 (create_record_conflict
                   (PhoneAddressCreate.Build (py "+79161234567") (py "Other"))
                   one_record (moscow, Some expire_30_days) _ _)).
  - apply store_of_answered.
  - vm_compute. reflexivity.
Defined.

Lemma update_address_requires_existence_witness :
  status_code
    (fst (serve 200
            (update_address (py "+7 (916) 123-45-67")
               (AddressUpdate.Build (py "Saint Petersburg")))
            one_record)) = 200.
Proof.
  refine (proj1 (proj2 (update_address_requires_existence
                          (py "+7 (916) 123-45-67")
                          (AddressUpdate.Build (py "Saint Petersburg"))
                          one_record) _ _)).
  - apply store_of_answered.
  - exists (moscow, Some expire_30_days). vm_compute. reflexivity.
Defined.

Lemma delete_record_semantics_witness :
  fst (serve HTTP_204_NO_CONTENT
         (delete_record (py "+7 (916) 123-45-67")) one_record)
  = Build_Response 204 JNone.
Proof.
  refine (proj1 (proj1 (delete_record_semantics
                          (py "+7 (916) 123-45-67") one_record) _ _)).
  - apply store_of_answered.
  - exists (moscow, Some expire_30_days). vm_compute. reflexivity.
Defined.

Lemma get_all_records_lists_answered_reads_witness :
  status_code (fst (GET_admin_records 5 ten_records_read_outage)) = 200.
Proof.
  refine (proj1 (get_all_records_lists_answered_reads 5
                   ten_records_read_outage _ _)).
  - reflexivity.
  - reflexivity.
Defined.

Lemma validation_failure_is_422_witness :
  exists errors,
    PhoneAddressCreate.validate (py "+79161234567") (py "abcd") = inl errors /\
    POST_phones (py "+79161234567") (py "abcd") one_record
    = (unprocessable errors, one_record).
Proof.
  refine (proj1 (validation_failure_is_422
                   (py "+79161234567") (py "+79161234567") (py "abcd")
                   one_record) _).
  left. reflexivity.
Defined.

Lemma phone_longer_than_20_is_rejected_witness :
  status_code
    (fst (POST_phones (py "+7 916 123 45 67 0000 0000 00") moscow one_record))
  = 422.
Proof.
  refine (proj1 (proj2 (phone_longer_than_20_is_rejected
                          (py "+7 916 123 45 67 0000 0000 00") moscow
                          one_record _))).
  vm_compute. reflexivity.
Defined.

(** The listing test of the specification: ten stored keys and [limit=5]. *)
Example ten_keys_limit_five :
  item "total_records" (content (fst (GET_admin_records 5 ten_records)))
    = Some (JInt 10) /\
  item "displayed_records" (content (fst (GET_admin_records 5 ten_records)))
    = Some (JInt 5) /\
  item "displayed_records" (content (fst (GET_admin_records 0 ten_records)))
    = Some (JInt 10) /\
  item "displayed_records"
    (content (fst (GET_admin_records (-3) ten_records)))
    = Some (JInt 10).
Proof. vm_compute. repeat split. Qed.

(** The health check in a world whose store is reachable. *)
Example health_check_reachable_store :
  GET_health one_record =
  (Build_Response 503
     (JDict [(py "detail",
              JStr (py "Service unhealthy: 503: Redis connection failed"))]),
   one_record).
Proof. reflexivity. Qed.

(** A store with a fault on the existence check lets a create overwrite a
    stored record: the conflict answer needs the store to answer. *)
Example create_record_outage_overwrites :
  let w := World true (db one_record) [] (fun n => Nat.eqb n 0) in
  let data := PhoneAddressCreate.Build (py "+79161234567") (py "Other") in
  status_code (fst (serve HTTP_201_CREATED (create_record data) w)) = 201 /\
  db (snd (serve HTTP_201_CREATED (create_record data) w))
    !! py "+79161234567" = Some (py "Other", Some 2592000).
Proof. vm_compute. split; reflexivity. Qed.

(** * Further properties of the handlers and of the client *)

(** ** Runs of the handlers in a store that answers *)

Lemma sent_after_two (c1 c2 : Command) (l : list Command) :
  (l ++ [c1]) ++ [c2] = l ++ [c1; c2].
Proof. now rewrite <- List.app_assoc. Qed.

Lemma create_record_run_absent (data : PhoneAddressCreate.t) (w : world) :
  let phone := PhoneAddressCreate.phone data in
  let address := PhoneAddressCreate.address data in
  answered 2 w ->
  db w !! phone = None ->
  serve HTTP_201_CREATED (create_record data) w =
  (Build_Response 201 (created_body phone address),
   after (SETEX phone 2592000 address)
     (<[phone := (address, Some 2592000)]> (db w))
     (after (EXISTS phone) (db w) w)).
Proof.
  cbn zeta. intros Hw Hdb.
  pose proof (answered_S _ _ Hw) as [Hc Hf].
  pose proof (answered_S _ _
    (answered_after _ (EXISTS (PhoneAddressCreate.phone data)) (db w) _ Hw))
    as [Hc' Hf'].
  unfold serve, create_record.
  rewrite (bind_run _ _ _ _ _ (exists_run _ w)).
  rewrite Hf, Hc, (count_None _ _ Hdb). cbn [Z.ltb Z.compare].
  rewrite (bind_run _ _ _ _ _ (set_data_30_days_run _ _ _)).
  rewrite Hf', Hc'. reflexivity.
Qed.

Lemma create_record_run_present
    (data : PhoneAddressCreate.t) (w : world) (stored : str * option Z) :
  let phone := PhoneAddressCreate.phone data in
  answered 2 w ->
  db w !! phone = Some stored ->
  serve HTTP_201_CREATED (create_record data) w =
  (Build_Response 409
     (JDict [(py "detail",
              JDict [(py "message",
                      JStr (py "Phone " ++ phone ++ py " already exists"));
                     (py "existing_address", JStr (fst stored))])]),
   after (GET phone) (db w) (after (EXISTS phone) (db w) w)).
Proof.
  cbn zeta. intros Hw Hdb.
  pose proof (answered_S _ _ Hw) as [Hc Hf].
  pose proof (answered_S _ _
    (answered_after _ (EXISTS (PhoneAddressCreate.phone data)) (db w) _ Hw))
    as [Hc' Hf'].
  unfold serve, create_record.
  rewrite (bind_run _ _ _ _ _ (exists_run _ w)).
  rewrite Hf, Hc, (count_Some _ _ _ Hdb). cbn [Z.ltb Z.compare].
  rewrite (bind_run _ _ _ _ _ (get_data_run _ _)).
  rewrite Hf', Hc'. cbn [db after]. rewrite Hdb. reflexivity.
Qed.


Lemma get_address_run_present
    (phone address : str) (ttl : option Z) (w : world) :
  let key := cleaned_phone phone in
  answered 1 w ->
  db w !! key = Some (address, ttl) ->
  GET_phones phone w =
  (Build_Response 200 (found_body key address), after (GET key) (db w) w).
Proof.
  cbn zeta. intros Hw Hdb.
  pose proof (answered_S _ _ Hw) as [Hc Hf].
  unfold GET_phones, serve, get_address.
  rewrite (bind_run _ _ _ _ _ (get_data_run _ w)).
  rewrite Hf, Hc, Hdb. reflexivity.
Qed.

Lemma answered_after_2 (k : nat) (c1 c2 : Command) (d1 d2 : entries)
    (w : world) :
  answered (S (S k)) w -> answered k (after c2 d2 (after c1 d1 w)).
Proof. intros Hw. now apply answered_after, answered_after. Qed.

(** ** Create *)

(** X1: a create of a phone that is not in the store, when the store
    answers, is answered with 201 and the normalised phone, the address and
    [ttl_days = 30]; the record is written with a time to live of 2,592,000
    seconds by one [SETEX] after one [EXISTS]. *)
Theorem create_record_created (data : PhoneAddressCreate.t) (w : world) :
  let phone := PhoneAddressCreate.phone data in
  let address := PhoneAddressCreate.address data in
  let response := fst (serve HTTP_201_CREATED (create_record data) w) in
  let w' := snd (serve HTTP_201_CREATED (create_record data) w) in
  answered 2 w ->
  db w !! phone = None ->
  response = Build_Response 201 (created_body phone address) /\
  db w' = <[phone := (address, Some (30 * 24 * 60 * 60))]> (db w) /\
  (forall k, k <> phone -> db w' !! k = db w !! k) /\
  sent w' = sent w ++ [EXISTS phone; SETEX phone 2592000 address].
Proof.
  cbn zeta. intros Hw Hdb.
  rewrite (create_record_run_absent data w Hw Hdb). cbn.
  split; [reflexivity|]. split; [reflexivity|].
  split; [|apply sent_after_two].
  intros k Hk. now apply lookup_insert_ne.
Qed.

(** X2: the round trip of the routes. When the store answers, a valid
    create payload for a phone that is not in the store is answered with
    201; when that phone, as it was written in the payload, can be a path
    parameter (it holds no ['/']), a read of it is then answered with 200,
    the normalised phone and the address of the payload. *)
Theorem create_then_read (phone address : str) (w : world) :
  path_parameter phone ->
  valid_create phone address ->
  answered 3 w ->
  db w !! cleaned_phone phone = None ->
  status_code (fst (POST_phones phone address w)) = 201 /\
  fst (GET_phones phone (snd (POST_phones phone address w)))
  = Build_Response 200 (found_body (cleaned_phone phone) address).
Proof.
  intros _ Hvalid Hw Hdb. unfold POST_phones.
  rewrite (create_validate_accepts phone address Hvalid).
  assert (Hw2 : answered 2 w).
  { destruct Hw as [Hc Ho]. split; [assumption|]. intros i Hi. apply Ho. lia. }
  rewrite (create_record_run_absent
             (PhoneAddressCreate.Build (cleaned_phone phone) address)
             w Hw2 Hdb).
  cbn [fst snd status_code PhoneAddressCreate.phone
         PhoneAddressCreate.address].
  split; [reflexivity|].
  erewrite get_address_run_present; [reflexivity| |].
  - now apply answered_after_2.
  - cbn. apply lookup_insert_eq.
Qed.

(** X3: a second create of the same phone, when the store answers, is
    answered with 409 and the address of the first create; the store keeps
    the record of the first create. *)
Theorem create_twice_conflicts
    (first second : PhoneAddressCreate.t) (w : world) :
  let phone := PhoneAddressCreate.phone first in
  let w1 := snd (serve HTTP_201_CREATED (create_record first) w) in
  let response := fst (serve HTTP_201_CREATED (create_record second) w1) in
  let w2 := snd (serve HTTP_201_CREATED (create_record second) w1) in
  PhoneAddressCreate.phone second = phone ->
  answered 4 w ->
  db w !! phone = None ->
  status_code response = 409 /\
  (item "detail" (content response) ≫= item "existing_address")
    = Some (JStr (PhoneAddressCreate.address first)) /\
  db w2 = db w1 /\
  db w2 !! phone = Some (PhoneAddressCreate.address first, Some 2592000).
Proof.
  cbn zeta. intros Hphone Hw Hdb.
  assert (Hw2 : answered 2 w).
  { destruct Hw as [Hc Ho]. split; [assumption|]. intros i Hi. apply Ho. lia. }
  rewrite (create_record_run_absent first w Hw2 Hdb). cbn [snd].
  rewrite (create_record_run_present second _
             (PhoneAddressCreate.address first, Some 2592000)).
  - cbn [fst snd status_code content db after].
    split; [reflexivity|]. split; [reflexivity|]. split; [reflexivity|].
    apply lookup_insert_eq.
  - now apply answered_after_2.
  - cbn. rewrite Hphone. apply lookup_insert_eq.
Qed.

Lemma faulty_after (c : Command) (d : entries) (w : world) :
  faulty (after c d w) = negb (client w) || outage w (S (List.length (sent w))).
Proof.
  unfold faulty, after. cbn [client sent outage].
  now rewrite List.length_app, Nat.add_1_r.
Qed.

Lemma faulty_second (c : Command) (d : entries) (w : world) :
  second_fails w -> faulty (if client w then after c d w else w) = true.
Proof.
  intros [Hc|Ho].
  - rewrite Hc. unfold faulty. now rewrite Hc.
  - destruct (client w) eqn:Hc.
    + rewrite faulty_after, Hc, Ho. reflexivity.
    + unfold faulty. now rewrite Hc.
Qed.

(** X4: when the write of a create fails (the manager is not initialised,
    or the write command does not reach the server), a create of a phone that
    is not in the store is answered with 500 and the entries are unchanged. *)
Theorem create_record_write_failure
    (data : PhoneAddressCreate.t) (w : world) :
  let response := fst (serve HTTP_201_CREATED (create_record data) w) in
  let w' := snd (serve HTTP_201_CREATED (create_record data) w) in
  second_fails w ->
  db w !! PhoneAddressCreate.phone data = None ->
  response = Build_Response 500
               (JDict [(py "detail",
                        JStr (py "Failed to create record in Redis"))]) /\
  db w' = db w.
Proof.
  cbn zeta. intros Hfail Hdb. unfold serve, create_record.
  rewrite (bind_run _ _ _ _ _ (exists_run _ w)).
  rewrite (faulty_absent_exists _ _ Hdb).
  rewrite (bind_run _ _ _ _ _ (set_data_30_days_run _ _ _)).
  rewrite (faulty_second _ _ _ Hfail).
  destruct w as [[] d s o]; split; reflexivity.
Qed.




(** ** Read *)

(** X7: a read of a stored phone, when the store answers, is answered with
    200, the normalised phone and the stored address; it sends one [GET] and
    leaves every entry, time to live included, as it was. *)
Theorem get_address_found
    (phone address : str) (ttl : option Z) (w : world) :
  let key := cleaned_phone phone in
  answered 1 w ->
  db w !! key = Some (address, ttl) ->
  fst (GET_phones phone w) = Build_Response 200 (found_body key address) /\
  db (snd (GET_phones phone w)) = db w /\
  sent (snd (GET_phones phone w)) = sent w ++ [GET key].
Proof.
  cbn zeta. intros Hw Hdb.
  rewrite (get_address_run_present phone address ttl w Hw Hdb).
  repeat split.
Qed.

(** X8: in every world a read is answered with 200 or 404 and changes no
    entry; it is answered with 404 not only when the phone is not in the
    store but also whenever the read of the store fails, even for a stored
    phone. *)
Theorem get_address_status (phone : str) (w : world) :
  status_code (fst (GET_phones phone w)) =
    (if faulty w then 404
     else match db w !! cleaned_phone phone with
          | Some _ => 200
          | None => 404
          end) /\
  db (snd (GET_phones phone w)) = db w.
Proof.
  unfold GET_phones, serve, get_address.
  rewrite (bind_run _ _ _ _ _ (get_data_run _ w)).
  destruct (faulty w), (client w), (db w !! cleaned_phone phone);
    repeat split.
Qed.


(** ** What a request can do to the store, in every world *)

Ltac step_world :=
  first
    [ rewrite (bind_run _ _ _ _ _ (exists_run _ _))
    | rewrite (bind_run _ _ _ _ _ (get_data_run _ _))
    | rewrite (bind_run _ _ _ _ _ (set_data_30_days_run _ _ _))
    | rewrite (bind_run _ _ _ _ _ (delete_key_run _ _))
    | rewrite (bind_run _ _ _ _ _ (keys_run _ _)) ];
  unfold faulty, after, count;
  cbn [client db sent outage negb orb andb];
  repeat match goal with
    | |- context [ if ?o ?n then _ else _ ] => is_var o; destruct (o n)
    | |- context [ match ?d !! ?k with _ => _ end ] =>
        is_var d; destruct (d !! k) eqn:?
    end;
  cbn [negb orb andb Z.ltb Z.compare].

Lemma update_address_db (phone : str) (data : AddressUpdate.t) (w : world) :
  let key := cleaned_phone phone in
  let w' := snd (serve 200 (update_address phone data) w) in
  db w' = db w \/
  (is_Some (db w !! key) /\
   db w' = <[key := (AddressUpdate.address data, Some 2592000)]> (db w)).
Proof.
  cbn zeta. destruct w as [[] d s o]; unfold serve, update_address;
    step_world; try (left; reflexivity);
    step_world; try (left; reflexivity).
  right. split; [eauto|reflexivity].
Qed.

Lemma delete_record_db (phone : str) (w : world) :
  let key := cleaned_phone phone in
  let w' := snd (serve HTTP_204_NO_CONTENT (delete_record phone) w) in
  db w' = db w \/ db w' = delete key (db w).
Proof.
  cbn zeta. destruct w as [[] d s o]; unfold serve, delete_record;
    step_world; try (left; reflexivity);
    step_world; try (left; reflexivity).
  all: right; reflexivity.
Qed.

Lemma create_record_db (data : PhoneAddressCreate.t) (w : world) :
  let phone := PhoneAddressCreate.phone data in
  let w' := snd (serve HTTP_201_CREATED (create_record data) w) in
  db w' = db w \/
  db w' = <[phone := (PhoneAddressCreate.address data, Some 2592000)]> (db w).
Proof.
  cbn zeta. destruct w as [[] d s o]; unfold serve, create_record;
    step_world; try (left; reflexivity);
    step_world; try (left; reflexivity).
  all: right; reflexivity.
Qed.

(** X10: in every world, faults included, a create, an update or a delete
    changes no entry but the one of its own normalised phone. *)
Theorem requests_touch_one_key
    (phone address other : str) (w : world) :
  let key := cleaned_phone phone in
  other <> key ->
  db (snd (serve HTTP_201_CREATED
             (create_record (PhoneAddressCreate.Build key address)) w))
    !! other = db w !! other /\
  db (snd (serve 200 (update_address phone (AddressUpdate.Build address)) w))
    !! other = db w !! other /\
  db (snd (serve HTTP_204_NO_CONTENT (delete_record phone) w))
    !! other = db w !! other.
Proof.
  cbn zeta. intros Hother. repeat split.
  - destruct (create_record_db
                (PhoneAddressCreate.Build (cleaned_phone phone) address) w)
      as [->| ->]; [reflexivity|].
    cbn. now apply lookup_insert_ne.
  - destruct (update_address_db phone (AddressUpdate.Build address) w)
      as [->|[_ ->]]; [reflexivity|].
    now apply lookup_insert_ne.
  - destruct (delete_record_db phone w) as [->| ->]; [reflexivity|].
    now apply lookup_delete_ne.
Qed.

(** X11: in every world, faults included, an update leaves the set of keys
    of the store as it was (it never creates a record), a delete never adds
    a key, and a create never removes one and adds at most its own phone. *)
Theorem requests_and_the_key_set
    (phone : str) (update : AddressUpdate.t) (create : PhoneAddressCreate.t)
    (w : world) :
  dom (db (snd (serve 200 (update_address phone update) w))) = dom (db w) /\
  dom (db (snd (serve HTTP_204_NO_CONTENT (delete_record phone) w)))
    ⊆ dom (db w) /\
  dom (db w)
    ⊆ dom (db (snd (serve HTTP_201_CREATED (create_record create) w))) /\
  dom (db (snd (serve HTTP_201_CREATED (create_record create) w)))
    ⊆ dom (db w) ∪ {[PhoneAddressCreate.phone create]}.
Proof.
  repeat split.
  - destruct (update_address_db phone update w) as [->|[Hsome ->]];
      [reflexivity|].
    rewrite dom_insert_L. apply elem_of_dom in Hsome.
    apply subseteq_union_1_L. now apply singleton_subseteq_l.
  - destruct (delete_record_db phone w) as [->| ->]; [reflexivity|].
    rewrite dom_delete_L. now apply subseteq_difference_l.
  - destruct (create_record_db create w) as [->| ->]; [reflexivity|].
    rewrite dom_insert_L. apply union_subseteq_r.
  - destruct (create_record_db create w) as [->| ->];
      [apply union_subseteq_l|].
    rewrite dom_insert_L, (comm_L (∪)). reflexivity.
Qed.

Ltac code_in_list :=
  unfold raise, ret, unprocessable;
  cbn [respond fst snd status_code option_fmap fmap option_map];
  unfold HTTP_201_CREATED, HTTP_204_NO_CONTENT, HTTP_404_NOT_FOUND,
    HTTP_409_CONFLICT, HTTP_422_UNPROCESSABLE_ENTITY,
    HTTP_500_INTERNAL_SERVER_ERROR;
  solve [repeat constructor].

(** X12: in every world each route answers with one of its own status
    codes: a read with 200 or 404, a create with 201, 409, 422 or 500, an
    update with 200, 404, 422 or 500, a delete with 204, 404 or 500. *)
Theorem route_status_codes (phone address : str) (w : world) :
  status_code (fst (GET_phones phone w)) ∈ [200; 404] /\
  status_code (fst (POST_phones phone address w)) ∈ [201; 409; 422; 500] /\
  status_code (fst (PUT_phones phone address w)) ∈ [200; 404; 422; 500] /\
  status_code (fst (DELETE_phones phone w)) ∈ [204; 404; 500].
Proof.
  repeat split.
  - destruct w as [[] d s o]; unfold GET_phones, serve, get_address;
      step_world; try destruct (d !! cleaned_phone phone); code_in_list.
  - unfold POST_phones.
    destruct (PhoneAddressCreate.validate phone address) as [errors|data];
      [code_in_list|].
    destruct w as [[] d s o]; unfold serve, create_record;
      step_world; step_world; code_in_list.
  - unfold PUT_phones.
    destruct (AddressUpdate.validate address) as [errors|data];
      [code_in_list|].
    destruct w as [[] d s o]; unfold serve, update_address;
      step_world; try code_in_list; step_world; code_in_list.
  - destruct w as [[] d s o]; unfold DELETE_phones, serve, delete_record;
      step_world; try code_in_list; step_world; code_in_list.
Qed.

(** ** The administrative routes in every world *)

Lemma setitem_length (key : str) (v : json) (items : list (str * json)) :
  (List.length (setitem key v items) <= S (List.length items))%nat.
Proof.
  induction items as [|[k x] items IH]; cbn; [lia|].
  destruct (decide (k = key)); cbn; lia.
Qed.

(** The loop in any world: it returns, changes no entry and adds at most one
    record per key read. *)
Lemma fetch_any (ks : list str) :
  forall (records : list (str * json)) (w : world),
  exists records' w',
    fetch ks records w = (Returned records', w') /\
    db w' = db w /\
    (List.length records' <= List.length records + List.length ks)%nat.
Proof.
  induction ks as [|k ks IH]; intros records w.
  - exists records, w. cbn. repeat split. lia.
  - cbn [fetch]. rewrite (bind_run _ _ _ _ _ (get_data_run _ w)).
    set (w1 := if client w then after (GET k) (db w) w else w).
    assert (Hdb : db w1 = db w) by (unfold w1; now destruct (client w)).
    destruct (if faulty w then None else fst <$> db w !! k) as [[|c v]|].
    + destruct (IH records w1) as (r & w' & -> & Hd & Hl).
      exists r, w'. repeat split; [congruence|cbn; lia].
    + destruct (IH (setitem k (JStr (c :: v)) records) w1)
        as (r & w' & -> & Hd & Hl).
      exists r, w'. repeat split; [congruence|].
      pose proof (setitem_length k (JStr (c :: v)) records). cbn. lia.
    + destruct (IH records w1) as (r & w' & -> & Hd & Hl).
      exists r, w'. repeat split; [congruence|cbn; lia].
Qed.

Lemma keys_to_fetch_bound (all_keys : list str) (limit : Z) :
  (List.length (keys_to_fetch all_keys limit) <= List.length all_keys)%nat /\
  (0 < limit -> len (keys_to_fetch all_keys limit) <= limit).
Proof.
  unfold keys_to_fetch, len. destruct (Z.ltb_spec 0 limit).
  - rewrite length_take. lia.
  - lia.
Qed.

(** X13: in every world, faults included, the listing is answered with 200;
    it changes no entry; the number of records it displays is at most the
    total it reports and, for a positive [limit], at most [limit]; the total
    is at most the number of keys of the store. *)
Theorem get_all_records_every_world (limit : Z) (w : world) :
  exists (total : Z) (records : list (str * json)),
    fst (GET_admin_records limit w) =
      Build_Response 200
        (JDict [(py "total_records", JInt total);
                (py "displayed_records", JInt (len records));
                (py "records", JDict records)]) /\
    0 <= len records <= total /\
    (0 < limit -> len records <= limit) /\
    total <= Z.of_nat (size (db w)) /\
    db (snd (GET_admin_records limit w)) = db w.
Proof.
  unfold GET_admin_records, serve, get_all_records, try_except.
  rewrite (bind_run _ _ _ _ _ (keys_run _ w)).
  set (all_keys := if faulty w then [] else _).
  set (w1 := if client w then after (KEYS (py "*")) (db w) w else w).
  assert (Hdb : db w1 = db w) by (unfold w1; now destruct (client w)).
  assert (Htotal : len all_keys <= Z.of_nat (size (db w))).
  { unfold all_keys. destruct (faulty w);
      [unfold len; cbn [List.length]; lia|].
    rewrite filter_all by apply glob_star.
    fold (key_list (db w)). rewrite key_list_length. lia. }
  destruct (fetch_any (keys_to_fetch all_keys limit) [] w1)
    as (records & w' & Hrun & Hd & Hl).
  rewrite (bind_run _ _ _ _ _ Hrun).
  exists (len all_keys), records. cbn [fst snd ret respond].
  destruct (keys_to_fetch_bound all_keys limit) as [Hall Hlimit].
  assert (Hlen : len records <= len (keys_to_fetch all_keys limit))
    by (unfold len; cbn in Hl; lia).
  split; [reflexivity|]. split; [unfold len in *; lia|].
  split; [intros Hpos; specialize (Hlimit Hpos); lia|].
  split; [assumption|congruence].
Qed.

Lemma keys_faulty (pattern : str) (w : world) :
  faulty w = true ->
  exists w', keys pattern w = (Returned [], w') /\ db w' = db w.
Proof.
  intros Hf. rewrite keys_run, Hf. eexists. split; [reflexivity|].
  now destruct (client w).
Qed.

(** X14: while the store cannot be reached (the manager is not initialised,
    or the command fails), the listing and the statistics are still answered
    with 200: they report zero records, and the statistics report the store
    as connected. *)
Theorem admin_routes_during_a_fault (limit : Z) (w : world) :
  faulty w = true ->
  fst (GET_admin_records limit w) =
    Build_Response 200
      (JDict [(py "total_records", JInt 0);
              (py "displayed_records", JInt 0);
              (py "records", JDict [])]) /\
  fst (GET_admin_stats w) =
    Build_Response 200
      (JDict [(py "total_records", JInt 0);
              (py "service", JStr (py "phone-address-microservice"));
              (py "redis_status", JStr (py "connected"));
              (py "sample_size", JInt 0)]).
Proof.
  intros Hf. destruct (keys_faulty (py "*") w Hf) as (w' & Hkeys & _).
  unfold GET_admin_records, GET_admin_stats, serve, get_all_records,
    get_stats, try_except.
  rewrite !(bind_run _ _ _ _ _ Hkeys).
  unfold keys_to_fetch. rewrite List.firstn_nil.
  destruct (0 <? limit); split; reflexivity.
Qed.

(** X15: when the store answers, the statistics report the number of keys
    of the store and the smaller of 5 and that number as [sample_size]; one
    [KEYS] command is sent, no value is read and no entry changes. *)
Theorem get_stats_counts (w : world) :
  answered 1 w ->
  fst (GET_admin_stats w) =
    Build_Response 200
      (JDict [(py "total_records", JInt (Z.of_nat (size (db w))));
              (py "service", JStr (py "phone-address-microservice"));
              (py "redis_status", JStr (py "connected"));
              (py "sample_size", JInt (Z.min 5 (Z.of_nat (size (db w)))))]) /\
  db (snd (GET_admin_stats w)) = db w /\
  sent (snd (GET_admin_stats w)) = sent w ++ [KEYS (py "*")].
Proof.
  intros Hw. unfold GET_admin_stats, serve, get_stats, try_except.
  rewrite (bind_run _ _ _ _ _ (keys_star_run w Hw)).
  cbn [fst snd ret respond]. rewrite key_list_length. repeat split.
Qed.

(** ** The models of objects.py *)

Lemma valid_create_dec (phone address : str) :
  {valid_create phone address} + {~ valid_create phone address}.
Proof.
  unfold valid_create.
  destruct (Z_le_dec 10 (len (cleaned_phone phone)));
    destruct (Z_le_dec (len (cleaned_phone phone)) 20);
    destruct (Z_le_dec 5 (len address));
    destruct (Z_le_dec (len address) 500);
    first [left; lia | right; lia].
Qed.

Lemma cleaned_phone_kept (s : str) : Forall kept (cleaned_phone s).
Proof.
  apply Forall_forall. intros c Hc. apply list_elem_of_In in Hc.
  now apply cleaned_phone_In in Hc.
Qed.

(** X16: a create payload that passes validation yields a model whose phone
    is the normalised phone of the payload, 10 to 20 characters long, made of
    digits and ['+'] only and unchanged by a further normalisation (so the
    key written by a create is the key a path parameter is normalised to),
    and whose address is the address of the payload, unchanged, 5 to 500
    characters long. *)
Theorem validated_create_model
    (phone address : str) (data : PhoneAddressCreate.t) :
  PhoneAddressCreate.validate phone address = inr data ->
  PhoneAddressCreate.phone data = cleaned_phone phone /\
  PhoneAddressCreate.address data = address /\
  10 <= len (PhoneAddressCreate.phone data) <= 20 /\
  5 <= len (PhoneAddressCreate.address data) <= 500 /\
  Forall kept (PhoneAddressCreate.phone data) /\
  cleaned_phone (PhoneAddressCreate.phone data) = PhoneAddressCreate.phone data.
Proof.
  intros Hv. destruct (valid_create_dec phone address) as [Hvalid|Hinvalid].
  - rewrite (create_validate_accepts phone address Hvalid) in Hv.
    injection Hv as <-. cbn. destruct Hvalid as [Hp Ha].
    repeat split; try lia.
    + apply cleaned_phone_kept.
    + apply filter_filter_same.
  - destruct (create_validate_rejects phone address Hinvalid) as [e He].
    congruence.
Qed.

(** ** The client *)

Lemma set_data_answered (key value : str) (expire : option Z) (w : world) :
  answered 1 w ->
  rejected expire = false ->
  exists c,
    set_data key value expire w =
    (Returned true, after c (<[key := (value, stored_ttl expire)]> (db w)) w).
Proof.
  intros Hw Hr. destruct (answered_S _ _ Hw) as [Hc Hf].
  unfold faulty in Hf. rewrite Hc in Hf. cbn in Hf.
  destruct w as [c d s o]. cbn in Hc, Hf. subst c.
  unfold stored_ttl. run. destruct expire as [seconds|]; cbn.
  - cbn in Hr. destruct (Z.eqb_spec seconds 0) as [->|Hne]; cbn; rewrite Hf.
    + eexists. reflexivity.
    + destruct (Z.ltb_spec 0 seconds); [|apply Z.ltb_ge in Hr; lia].
      eexists. reflexivity.
  - rewrite Hf. eexists. reflexivity.
Qed.

(** X17: the round trip of the client. When the store answers, [set_data]
    with an [expire] that is not negative and that the clock of the server
    holds ([clock_safe]) returns [True]; afterwards [get_data] of the key
    returns the value and [exists] returns [True]; the key expires after
    [expire] seconds, and never when [expire] is [None] or 0; no other key
    changes. *)
Theorem set_data_then_get_data
    (key value : str) (expire : option Z) (w : world) :
  let w1 := snd (set_data key value expire w) in
  answered 2 w ->
  rejected expire = false ->
  clock_safe expire ->
  fst (set_data key value expire w) = Returned true /\
  fst (get_data key w1) = Returned (Some value) /\
  fst (exists_ key w1) = Returned true /\
  db w1 !! key = Some (value, stored_ttl expire) /\
  (forall other, other <> key -> db w1 !! other = db w !! other).
Proof.
  cbn zeta. intros Hw Hr _.
  assert (Hw1 : answered 1 w).
  { destruct Hw as [Hc Ho]. split; [assumption|]. intros i Hi. apply Ho. lia. }
  destruct (set_data_answered key value expire w Hw1 Hr) as [c ->].
  cbn [fst snd].
  destruct (answered_S _ _
              (answered_after 1 c
                 (<[key := (value, stored_ttl expire)]> (db w)) w Hw))
    as [Hc' Hf'].
  rewrite get_data_run, exists_run, Hf'. cbn [fst db after].
  rewrite lookup_insert_eq. unfold count. rewrite lookup_insert_eq.
  repeat split. intros other Hother. now apply lookup_insert_ne.
Qed.

(** X18: [set_data] with a negative [expire] returns [False] in every world
    and writes nothing: the server rejects the time to live. *)
Theorem set_data_negative_expire
    (key value : str) (seconds : Z) (w : world) :
  seconds < 0 ->
  fst (set_data key value (Some seconds) w) = Returned false /\
  db (snd (set_data key value (Some seconds) w)) = db w.
Proof.
  intros Hneg. destruct w as [[] d s o]; run; [|split; reflexivity].
  destruct (Z.eqb_spec seconds 0) as [->|_]; [lia|]. cbn.
  destruct (o _); cbn; [split; reflexivity|].
  destruct (Z.ltb_spec 0 seconds); [lia|]. split; reflexivity.
Qed.

(** X19: a manager that was not initialised sends nothing: every method
    returns its sentinel and leaves the world as it was. *)
Theorem client_not_initialised
    (key value pattern : str) (expire : option Z) (w : world) :
  client w = false ->
  get_data key w = (Returned None, w) /\
  set_data key value expire w = (Returned false, w) /\
  exists_ key w = (Returned false, w) /\
  delete_key key w = (Returned false, w) /\
  keys pattern w = (Returned [], w).
Proof.
  intros Hc. destruct w as [c d s o]. cbn in Hc. subst c.
  repeat split.
Qed.

(** X20: deleting twice. When the store answers, [delete_key] of a stored
    key returns [True] and removes it; a second [delete_key] of the same key
    returns [False], and [get_data] then returns [None]. *)
Theorem delete_key_twice (key : str) (w : world) :
  let w1 := snd (delete_key key w) in
  let w2 := snd (delete_key key w1) in
  answered 3 w ->
  is_Some (db w !! key) ->
  fst (delete_key key w) = Returned true /\
  fst (delete_key key w1) = Returned false /\
  fst (get_data key w2) = Returned None /\
  db w2 = delete key (db w).
Proof.
  cbn zeta. intros Hw [stored Hdb].
  destruct (answered_S _ _ Hw) as [Hc Hf].
  rewrite (delete_key_run key w), Hc, Hf, (count_Some _ _ _ Hdb).
  cbn [fst snd].
  pose proof (answered_after 2 (DEL key) (delete key (db w)) w Hw) as Hw1.
  destruct (answered_S _ _ Hw1) as [Hc1 Hf1].
  rewrite (delete_key_run key (after _ _ w)), Hc1, Hf1. cbn [fst snd db after].
  rewrite (count_None _ key (lookup_delete_eq (db w) key)).
  rewrite get_data_run. cbn [fst].
  match goal with
  | |- context [ faulty ?x ] =>
      destruct (answered_S 0 x) as [_ ->]
  end.
  - now apply (answered_after 1 (DEL key) _ _ Hw1).
  - cbn [db after]. rewrite delete_delete_eq, lookup_delete_eq.
    repeat split.
Qed.

(** ** Faults of the existence check *)

(** X21: an existence check that fails counts as "not found". For a stored
    phone, an update and a delete are then answered with 404 and change no
    entry, in whatever state the following commands are. *)
Theorem existence_check_failure_is_not_found
    (phone : str) (data : AddressUpdate.t) (w : world) :
  faulty w = true ->
  status_code (fst (serve 200 (update_address phone data) w)) = 404 /\
  db (snd (serve 200 (update_address phone data) w)) = db w /\
  status_code (fst (serve HTTP_204_NO_CONTENT (delete_record phone) w)) = 404 /\
  db (snd (serve HTTP_204_NO_CONTENT (delete_record phone) w)) = db w.
Proof.
  intros Hf. unfold serve, update_address, delete_record.
  rewrite !(bind_run _ _ _ _ _ (exists_run _ w)), Hf.
  destruct (client w); repeat split.
Qed.

(** X22: a create whose existence check fails takes the path of a new
    phone: when its write is answered, it is answered with 201 and the
    record of a phone that was already stored is replaced. *)
Theorem create_record_check_failure
    (data : PhoneAddressCreate.t) (w : world) :
  let phone := PhoneAddressCreate.phone data in
  let address := PhoneAddressCreate.address data in
  let response := fst (serve HTTP_201_CREATED (create_record data) w) in
  let w' := snd (serve HTTP_201_CREATED (create_record data) w) in
  check_fails w ->
  response = Build_Response 201 (created_body phone address) /\
  db w' = <[phone := (address, Some 2592000)]> (db w) /\
  db w' !! phone = Some (address, Some 2592000).
Proof.
  cbn zeta. intros (Hc & Ho & Ho').
  assert (Hf : faulty w = true) by (unfold faulty; now rewrite Hc, Ho).
  unfold serve, create_record.
  rewrite (bind_run _ _ _ _ _ (exists_run _ w)), Hf, Hc.
  rewrite (bind_run _ _ _ _ _ (set_data_30_days_run _ _ _)).
  rewrite faulty_after, Hc, Ho'. cbn [client after negb orb].
  rewrite Hc. repeat split. apply lookup_insert_eq.
Qed.

(** X23: behind a manager that was not initialised no route sends a
    command: a read, an update and a delete are answered with 404, a create
    with 500, and the world is left as it was. *)
Theorem routes_without_a_client
    (phone : str) (create : PhoneAddressCreate.t) (update : AddressUpdate.t)
    (w : world) :
  client w = false ->
  GET_phones phone w =
    (Build_Response 404
       (JDict [(py "detail",
                JStr (py "Address not found for phone: "
                      ++ cleaned_phone phone))]), w) /\
  status_code (fst (serve HTTP_201_CREATED (create_record create) w)) = 500 /\
  snd (serve HTTP_201_CREATED (create_record create) w) = w /\
  status_code (fst (serve 200 (update_address phone update) w)) = 404 /\
  snd (serve 200 (update_address phone update) w) = w /\
  status_code (fst (DELETE_phones phone w)) = 404 /\
  snd (DELETE_phones phone w) = w.
Proof.
  intros Hc. destruct w as [c d s o]. cbn in Hc. subst c.
  repeat split.
Qed.

(** ** The further properties at sample requests *)

Lemma create_record_created_witness :
  fst (serve HTTP_201_CREATED (create_record sample_create) no_records)
  = Build_Response 201 (created_body (py "+79161234567") moscow).
Proof.
  refine (proj1 (create_record_created sample_create no_records _ _)).
  - apply store_of_answered.
  - vm_compute. reflexivity.
Defined.

Lemma create_then_read_witness :
  status_code
    (fst (POST_phones (py "+7 (916) 123-45-67") moscow no_records)) = 201.
Proof.
  refine (proj1 (create_then_read (py "+7 (916) 123-45-67") moscow
                   no_records _ _ _ _)).
  - split; [discriminate|reflexivity].
  - vm_compute. repeat split; discriminate.
  - apply store_of_answered.
  - vm_compute. reflexivity.
Defined.

Lemma create_twice_conflicts_witness :
  status_code
    (fst (serve HTTP_201_CREATED
            (create_record
               (PhoneAddressCreate.Build (py "+79161234567") (py "Other")))
            (snd (serve HTTP_201_CREATED (create_record sample_create)
                    no_records)))) = 409.
Proof.
  refine (proj1 (create_twice_conflicts sample_create
                   (PhoneAddressCreate.Build (py "+79161234567") (py "Other"))
                   no_records _ _ _)).
  - reflexivity.
  - apply store_of_answered.
  - vm_compute. reflexivity.
Defined.

Lemma create_record_write_failure_witness :
  db (snd (serve HTTP_201_CREATED (create_record sample_create)
             no_records_write_outage))
  = db no_records_write_outage.
Proof.
  refine (proj2 (create_record_write_failure sample_create
                   no_records_write_outage _ _)).
  - right. reflexivity.
  - vm_compute. reflexivity.
Defined.



Lemma get_address_found_witness :
  fst (GET_phones (py "+7 916 123-45-67") one_record)
  = Build_Response 200 (found_body (py "+79161234567") moscow).
Proof.
  refine (proj1 (get_address_found (py "+7 916 123-45-67") moscow
                   (Some expire_30_days) one_record _ _)).
  - apply store_of_answered.
  - vm_compute. reflexivity.
Defined.


Lemma requests_touch_one_key_witness :
  db (snd (serve HTTP_204_NO_CONTENT (delete_record (py "+7 000 000-00-00"))
             one_record))
    !! py "+79161234567"
  = db one_record !! py "+79161234567".
Proof.
  refine (proj2 (proj2 (requests_touch_one_key
                          (py "+7 000 000-00-00") moscow (py "+79161234567")
                          one_record _))).
  vm_compute. discriminate.
Defined.

Lemma admin_routes_during_a_fault_witness :
  fst (GET_admin_stats one_record_unreachable) =
    Build_Response 200
      (JDict [(py "total_records", JInt 0);
              (py "service", JStr (py "phone-address-microservice"));
              (py "redis_status", JStr (py "connected"));
              (py "sample_size", JInt 0)]).
Proof.
  refine (proj2 (admin_routes_during_a_fault 100 one_record_unreachable _)).
  reflexivity.
Defined.

Lemma get_stats_counts_witness :
  sent (snd (GET_admin_stats ten_records)) = sent ten_records ++ [KEYS (py "*")].
Proof.
  refine (proj2 (proj2 (get_stats_counts ten_records _))).
  apply store_of_answered.
Defined.

Lemma validated_create_model_witness :
  PhoneAddressCreate.phone sample_create
  = cleaned_phone (py "+7 (916) 123-45-67").
Proof.
  refine (proj1 (validated_create_model (py "+7 (916) 123-45-67") moscow
                   sample_create _)).
  vm_compute. reflexivity.
Defined.

Lemma set_data_then_get_data_witness :
  fst (set_data (py "key") (py "value") (Some 300) no_records)
  = Returned true.
Proof.
  refine (proj1 (set_data_then_get_data (py "key") (py "value") (Some 300)
                   no_records _ _ _)).
  - apply store_of_answered.
  - reflexivity.
  - vm_compute. discriminate.
Defined.

Lemma set_data_negative_expire_witness :
  fst (set_data (py "key") (py "value") (Some (-1)) no_records)
  = Returned false.
Proof.
  refine (proj1 (set_data_negative_expire (py "key") (py "value") (-1)
                   no_records _)).
  reflexivity.
Defined.

Lemma client_not_initialised_witness :
  get_data (py "+79161234567") one_record_no_client
  = (Returned None, one_record_no_client).
Proof.
  refine (proj1 (client_not_initialised (py "+79161234567") moscow (py "*")
                   (Some 300) one_record_no_client _)).
  reflexivity.
Defined.

Lemma delete_key_twice_witness :
  fst (delete_key (py "+79161234567") one_record) = Returned true.
Proof.
  refine (proj1 (delete_key_twice (py "+79161234567") one_record _ _)).
  - apply store_of_answered.
  - exists (moscow, Some expire_30_days). vm_compute. reflexivity.
Defined.

Lemma existence_check_failure_is_not_found_witness :
  status_code
    (fst (serve 200 (update_address (py "+79161234567") sample_update)
            one_record_unreachable)) = 404.
Proof.
  refine (proj1 (existence_check_failure_is_not_found (py "+79161234567")
                   sample_update one_record_unreachable _)).
  reflexivity.
Defined.

Lemma create_record_check_failure_witness :
  fst (serve HTTP_201_CREATED
         (create_record
            (PhoneAddressCreate.Build (py "+79161234567") (py "Other")))
         one_record_check_outage)
  = Build_Response 201 (created_body (py "+79161234567") (py "Other")).
Proof.
  refine (proj1 (create_record_check_failure
                   (PhoneAddressCreate.Build (py "+79161234567") (py "Other"))
                   one_record_check_outage _)).
  repeat split.
Defined.

Lemma routes_without_a_client_witness :
  GET_phones (py "+79161234567") one_record_no_client =
  (Build_Response 404
     (JDict [(py "detail",
              JStr (py "Address not found for phone: "
                    ++ cleaned_phone (py "+79161234567")))]),
   one_record_no_client).
Proof.
  refine (proj1 (routes_without_a_client (py "+79161234567") sample_create
                   sample_update one_record_no_client _)).
  reflexivity.
Defined.

(** ** Where the claims on stored phones need the store to answer *)

(** C3, as the specification states it, fails. The phone is in the store,
    yet a create whose existence check fails is answered with 201 and
    replaces the record, and a create whose read of the stored address fails
    is answered with 409 and no address. *)
Lemma create_record_conflict_needs_answers :
  db one_record !! py "+79161234567" = Some (moscow, Some 2592000) /\
  status_code
    (fst (serve HTTP_201_CREATED
            (create_record
               (PhoneAddressCreate.Build (py "+79161234567") (py "Other")))
            one_record_check_outage)) = 201 /\
  db (snd (serve HTTP_201_CREATED
             (create_record
                (PhoneAddressCreate.Build (py "+79161234567") (py "Other")))
             one_record_check_outage)) !! py "+79161234567"
    = Some (py "Other", Some 2592000) /\
  status_code
    (fst (serve HTTP_201_CREATED
            (create_record
               (PhoneAddressCreate.Build (py "+79161234567") (py "Other")))
            one_record_write_outage)) = 409 /\
  (item "detail"
     (content
        (fst (serve HTTP_201_CREATED
                (create_record
                   (PhoneAddressCreate.Build (py "+79161234567")
                      (py "Other")))
                one_record_write_outage)))
   ≫= item "existing_address") = Some JNone.
Proof. vm_compute. repeat split. Qed.

(** C4, as the specification states it, fails. The phone is in the store,
    yet an update whose existence check fails is answered with 404 and an
    update whose write fails is answered with 500; the stored address stays
    in both cases. *)
Lemma update_address_needs_answers :
  db one_record !! py "+79161234567" = Some (moscow, Some 2592000) /\
  status_code
    (fst (serve 200 (update_address (py "+79161234567") sample_update)
            one_record_check_outage)) = 404 /\
  db (snd (serve 200 (update_address (py "+79161234567") sample_update)
             one_record_check_outage)) !! py "+79161234567"
    = Some (moscow, Some 2592000) /\
  status_code
    (fst (serve 200 (update_address (py "+79161234567") sample_update)
            one_record_write_outage)) = 500 /\
  db (snd (serve 200 (update_address (py "+79161234567") sample_update)
             one_record_write_outage)) !! py "+79161234567"
    = Some (moscow, Some 2592000).
Proof. vm_compute. repeat split. Qed.

(** C5, as the specification states it, fails. The phone is in the store,
    yet a delete whose existence check fails is answered with 404 and a
    delete whose deletion fails is answered with 500; the key stays in both
    cases. *)
Lemma delete_record_needs_answers :
  db one_record !! py "+79161234567" = Some (moscow, Some 2592000) /\
  status_code
    (fst (serve HTTP_204_NO_CONTENT (delete_record (py "+79161234567"))
            one_record_check_outage)) = 404 /\
  db (snd (serve HTTP_204_NO_CONTENT (delete_record (py "+79161234567"))
             one_record_check_outage)) !! py "+79161234567"
    = Some (moscow, Some 2592000) /\
  status_code
    (fst (serve HTTP_204_NO_CONTENT (delete_record (py "+79161234567"))
            one_record_write_outage)) = 500 /\
  db (snd (serve HTTP_204_NO_CONTENT (delete_record (py "+79161234567"))
             one_record_write_outage)) !! py "+79161234567"
    = Some (moscow, Some 2592000).
Proof. vm_compute. repeat split. Qed.

(** C6, as the specification states it, fails. Ten stored keys with empty
    values and [limit=5], in a store that answers every command, give
    [total_records = 10] and [displayed_records = 0]; and a store with one
    key whose [KEYS] command fails gives [total_records = 0]. *)
Lemma get_all_records_counts_need_values :
  size (db ten_empty_records) = 10%nat /\
  item "total_records" (content (fst (GET_admin_records 5 ten_empty_records)))
    = Some (JInt 10) /\
  item "displayed_records"
    (content (fst (GET_admin_records 5 ten_empty_records)))
    = Some (JInt 0) /\
  size (db one_record_unreachable) = 1%nat /\
  item "total_records"
    (content (fst (GET_admin_records 5 one_record_unreachable)))
    = Some (JInt 0).
Proof. vm_compute. repeat split. Qed.

(** A read that fails is skipped like a missing value: ten stored keys, the
    read of the third of which fails, and [limit=5]. *)
Example ten_keys_one_failed_read :
  item "total_records"
    (content (fst (GET_admin_records 5 ten_records_read_outage)))
    = Some (JInt 10) /\
  item "displayed_records"
    (content (fst (GET_admin_records 5 ten_records_read_outage)))
    = Some (JInt 4).
Proof. vm_compute. repeat split. Qed.
